(** * Data ingestion stage: a shallow embedding of [src/data_ingestion.py]

    The script loads a YAML configuration, fetches a CSV table, drops and
    renames columns, splits the rows into a train and a test partition and
    writes both to disk.  Each Python function of the script is a
    definition of the same name below, written in a state-and-exception
    monad over a [World] that holds what the script can observe or change:
    the files and the remote resources it reads, the files it writes, its
    log, its standard output and numpy's global random state.

    The library calls of the script ([str.replace], [in], [os.path.join],
    [DataFrame.drop], [DataFrame.rename], [train_test_split], ...) are
    modelled after the documented behaviour of the libraries.  The text
    of an exception that a library raises is abridged: the libraries
    quote their arguments in it. *)

From Stdlib Require Import QArith Qround Lqa SpecFloat.
From stdpp Require Import gmap strings list fin_maps.

Local Open Scope string_scope.
Local Open Scope Z_scope.

(** ** Python built-ins on [str] *)

Module Py.

(** [s.startswith(pre)] *)
Fixpoint startswith (s pre : string) {struct pre} : bool :=
  match pre, s with
  | EmptyString, _ => true
  | String _ _, EmptyString => false
  | String a pre', String b s' => Ascii.eqb a b && startswith s' pre'
  end.

(** [sub in s]: [sub] occurs in [s] at some position. *)
Fixpoint str_in (sub s : string) : bool :=
  startswith s sub ||
  match s with
  | EmptyString => false
  | String _ s' => str_in sub s'
  end.

(** The scan of [s.replace(old, new)] for a non-empty [old]: left to
    right, an occurrence of [old] at the current position is replaced and
    the scan resumes behind it, so occurrences never overlap and the text
    already produced is not scanned again.  [skip] counts the characters
    of a matched occurrence that are still to be passed over. *)
Fixpoint replace_scan (old new : string) (skip : nat) (s : string) : string :=
  match s with
  | EmptyString => EmptyString
  | String c s' =>
      match skip with
      | S k => replace_scan old new k s'
      | O =>
          if startswith s old
          then new +:+ replace_scan old new (String.length old - 1) s'
          else String c (replace_scan old new 0 s')
      end
  end.

(** [s.replace('', new)]: [new] goes before every character and at the end. *)
Fixpoint replace_empty (new s : string) : string :=
  match s with
  | EmptyString => new
  | String c s' => new +:+ String c (replace_empty new s')
  end.

(** [s.replace(old, new)] *)
Definition str_replace (s old new : string) : string :=
  match old with
  | EmptyString => replace_empty new s
  | String _ _ => replace_scan old new 0 s
  end.

(** [os.path.join(a, b)] on a POSIX system. *)
Definition os_path_join (a b : string) : string :=
  if startswith b "/" then b
  else match a with
       | EmptyString => b
       | _ => if startswith (String.rev a) "/" then a +:+ b else a +:+ "/" +:+ b
       end.

End Py.

(** ** Exceptions *)

(** The exception classes the script names in its handlers or that the
    modelled library calls raise.  [OtherException] stands for any other
    subclass of [Exception]; [KeyboardInterrupt] for the subclasses of
    [BaseException] that [except Exception] does not catch. *)
Inductive exn_class :=
  | FileNotFoundError | YAMLError | ParserError | KeyError | TypeError
  | ValueError | IndexError | OSError | OtherException | KeyboardInterrupt.

(** An exception object: its class and [str(e)]. *)
Record exn := Exn { exn_cls : exn_class; exn_str : string }.

(** [isinstance(e, Exception)] *)
Definition is_Exception (e : exn) : bool :=
  match exn_cls e with
  | KeyboardInterrupt => false
  | _ => true
  end.

(** What a call does: it returns a value or raises. *)
Inductive result (A : Type) :=
  | Ok (a : A)
  | Raise (e : exn).
Arguments Ok {A} a.
Arguments Raise {A} e.

(** ** Tables *)

Inductive cell :=
  | NaN
  | Str (s : string)
  | Int (z : Z).

(** A [pandas.DataFrame]: the row labels and the columns in order, each a
    label with one cell per row.  Column labels may repeat. *)
Record DataFrame := mkDataFrame {
  index : list Z;
  columns : list (string * list cell)
}.

Definition column_names (df : DataFrame) : list string := (columns df).*1.

(** [len(df)] *)
Definition nrows (df : DataFrame) : nat := length (index df).

(** Every column has one cell per row label. *)
Definition well_formed (df : DataFrame) : Prop :=
  Forall (fun c => length c.2 = length (index df)) (columns df).

(** ** Floating point *)

(** Python's [float] is IEEE 754 binary64, here on the specification of
    floating-point arithmetic of the standard library. *)
Module Binary64.

Definition prec : Z := 53.

Definition emax : Z := 1024.

(** [float(z)] *)
Definition of_int (z : Z) : spec_float := binary_normalize prec emax z 0 false.

(** The float a decimal literal denotes: the binary64 nearest to the
    rational, for a numerator and a denominator below [2^53]. *)
Definition literal (q : Q) : spec_float :=
  SFdiv prec emax (of_int (Qnum q)) (of_int (Zpos (Qden q))).

(** [x * y], rounded to nearest, ties to even. *)
Definition mul (x y : spec_float) : spec_float := SFmul prec emax x y.

(** [x < y] and [x <= y]; false when either is not a number. *)
Definition ltb (x y : spec_float) : bool := SFltb x y.

Definition leb (x y : spec_float) : bool := SFleb x y.

(** [x] is a value of the format. *)
Definition valid (x : spec_float) : bool := valid_binary prec emax x.

(** The number a finite float is. *)
Definition value (x : spec_float) : option Q :=
  match x with
  | S754_zero _ => Some 0%Q
  | S754_finite s m e =>
      Some (inject_Z (if s then Zneg m else Zpos m) * 2 ^ e)%Q
  | S754_infinity _ | S754_nan => None
  end.

(** [math.ceil(x)]: the least integer not below [x]; [ValueError] for
    what is not a number and [OverflowError] for an infinity. *)
Definition ceil (x : spec_float) : result Z :=
  match x with
  | S754_nan => Raise (Exn ValueError "cannot convert float NaN to integer")
  | S754_infinity _ =>
      Raise (Exn OtherException "cannot convert float infinity to integer")
  | S754_zero _ => Ok 0
  | S754_finite s m e =>
      Ok (Qceiling (inject_Z (if s then Zneg m else Zpos m) * 2 ^ e))
  end.

End Binary64.

(** ** Configuration documents *)

#[local] Set Warnings "-register-all".

(** What [yaml.safe_load] returns.  A mapping is a [dict]; only its
    string keys are kept, as the script looks up string keys only. *)
Inductive yaml :=
  | YNull
  | YBool (b : bool)
  | YInt (z : Z)
  | YFloat (x : spec_float)
  | YStr (s : string)
  | YSeq (l : list yaml)
  | YMap (m : gmap string yaml).

(** ** Random numbers *)

(** numpy's [RandomState]: a generator state, seeding, and
    [random_interval(state, max)], a draw from 0..max that advances the
    state. *)
Class RandomGen := {
  rng_state : Type;
  rng_seed : Z -> rng_state;
  random_interval : rng_state -> nat -> nat * rng_state;
  random_interval_le : forall s max, ((random_interval s max).1 <= max)%nat
}.

(** A linear congruential generator, as an instance to compute with. *)
Definition lcg : RandomGen.
Proof.
  refine {| rng_state := Z;
            rng_seed := fun seed => seed;
            random_interval := fun s max =>
              let s' := (s * 1103515245 + 12345) mod 2147483648 in
              (Z.to_nat (s' mod (Z.of_nat max + 1)), s') |}.
  intros s max; simpl.
  pose proof (Z.mod_pos_bound ((s * 1103515245 + 12345) mod 2147483648)
                (Z.of_nat max + 1)).
  lia.
Defined.

(** ** pandas *)

Module Pandas.

(** [repr] of a list of strings that hold no quote. *)
Definition repr_list (l : list string) : string :=
  "[" +:+ String.concat ", " ((fun s => "'" +:+ s +:+ "'") <$> l) +:+ "]".

(** [str(KeyError(msg))] is [repr(msg)]: a message that holds single
    quotes is put between double quotes. *)
Definition key_error (msg : string) : exn :=
  let dq := String (Ascii.ascii_of_nat 34) EmptyString in
  Exn KeyError (dq +:+ msg +:+ dq).

(** [df.drop(columns=labels)], with the default [errors='raise']: a
    label that no column bears raises [KeyError] and leaves the table as
    it is; otherwise every column that bears one of the labels goes. *)
Definition drop (labels : list string) (df : DataFrame) : result DataFrame :=
  match filter (fun l => l ∉ column_names df) labels with
  | [] =>
      Ok (mkDataFrame (index df) (filter (fun c => c.1 ∉ labels) (columns df)))
  | missing => Raise (key_error (repr_list missing +:+ " not found in axis"))
  end.

(** [df.rename(columns=mapper)], with the default [errors='ignore']: a
    column whose label is a key of [mapper] takes the mapped label, the
    other columns keep theirs, and a key that no column bears is
    ignored. *)
Definition rename (mapper : gmap string string) (df : DataFrame) : DataFrame :=
  mkDataFrame (index df)
    ((fun c => (default c.1 (mapper !! c.1), c.2)) <$> columns df).

(** [l[i] for i in positions] *)
Definition take_positions {A} (positions : list nat) (l : list A) : list A :=
  omap (fun i => l !! i) positions.

(** [df.iloc[positions]]: the rows at the given positions, in the given
    order; a position past the last row raises [IndexError]. *)
Definition iloc (df : DataFrame) (positions : list nat) : result DataFrame :=
  if forallb (fun i => i <? nrows df)%nat positions
  then Ok (mkDataFrame (take_positions positions (index df))
             ((fun c => (c.1, take_positions positions c.2)) <$> columns df))
  else Raise (Exn IndexError "positional indexers are out-of-bounds").

End Pandas.

(** ** numpy *)

Module Numpy.
Section Shuffle.

Context {G : RandomGen}.

(** [x[i], x[j] = x[j], x[i]] *)
Definition swap (x : list nat) (i j : nat) : list nat :=
  match x !! i, x !! j with
  | Some a, Some b => <[j := a]> (<[i := b]> x)
  | _, _ => x
  end.

(** The loop of [RandomState.shuffle]:
    [for i in reversed(range(1, n)): j = random_interval(i); swap(i, j)],
    entered here at position [i]. *)
Fixpoint shuffle_from (i : nat) (x : list nat) (s : rng_state) : list nat * rng_state :=
  match i with
  | O => (x, s)
  | S i' =>
      let '(j, s') := random_interval s i in
      shuffle_from i' (swap x i j) s'
  end.

(** [rng.permutation(n)]: [arange(n)], shuffled. *)
Definition permutation (n : nat) (s : rng_state) : list nat * rng_state :=
  shuffle_from (n - 1) (seq 0 n) s.

End Shuffle.
End Numpy.

(** ** scikit-learn *)

Module Sklearn.

Definition value_error (msg : string) : exn := Exn ValueError msg.

(** The sizes of the two partitions, [(n_train, n_test)], as
    [_validate_shuffle_split(n_samples, test_size, train_size=None,
    default_test_size=0.25)] computes them: a float [test_size] must lie
    strictly between 0 and 1 and gives [ceil(test_size * n_samples)] test
    rows, the product taken in binary64 and [ceil] being [math.ceil]; an
    integer [test_size] must lie strictly between 0 and [n_samples] and
    is the number of test rows; [None] stands for 0.25; the train
    partition takes the remaining rows and [ValueError] is raised when
    it would be empty.  The two sizes are validated once more, as row
    counts, when the split is drawn: each must be positive.  The
    messages are abridged: the library's quote [n_samples] and
    [test_size]. *)
Definition validate_shuffle_split (n_samples : nat) (test_size : yaml)
  : result (nat * nat) :=
  let sizes (n_test : Z) : result (nat * nat) :=
    let n_train := Z.of_nat n_samples - n_test in
    if n_train =? 0
    then Raise (value_error "the resulting train set will be empty")
    else if (n_train <? 0) || (n_test <=? 0)
    then Raise (value_error "a partition size should be positive and smaller than the number of samples")
    else Ok (Z.to_nat n_train, Z.to_nat n_test) in
  let fraction (x : spec_float) : result (nat * nat) :=
    if Binary64.leb x (Binary64.of_int 0) || Binary64.leb (Binary64.of_int 1) x
    then Raise (value_error "test_size should be a float in the (0, 1) range")
    else
      match Binary64.ceil
              (Binary64.mul x (Binary64.of_int (Z.of_nat n_samples))) with
      | Ok n_test => sizes n_test
      | Raise e => Raise e
      end in
  match test_size with
  | YNull => fraction (Binary64.literal (1 # 4))
  | YFloat x => fraction x
  | YInt z =>
      if (z <=? 0) || (Z.of_nat n_samples <=? z)
      then Raise (value_error "test_size should be a positive integer smaller than the number of samples")
      else sizes z
  | _ => Raise (value_error "Invalid value for test_size")
  end.

End Sklearn.

(** ** The world of the script *)

Inductive level := DEBUG | INFO | ERROR.

(** The text of a CSV file written with [index=False]: the header and
    the cells, column by column, without the row labels. *)
Definition csv := list (string * list cell).

(** The file the script's [FileHandler] appends every record to (lines
    10 and 22). *)
Definition log_dir : string := "logs".

Definition log_file_path : string := Py.os_path_join log_dir "data_ingestion.log".

Section Pipeline.

Context {G : RandomGen}.

(** The first five fields are the environment, which the script only
    reads: what opening and parsing a YAML file gives, what [pd.read_csv]
    gives for a location, the fault, if any, that creating a directory
    or writing a file runs into, and what a write that fails leaves in
    the file: [None] when it fails before the file is opened, so that
    the file is as it was, and otherwise the content of the file that
    the open has created or truncated and the write may have filled in
    part.  The others are state: numpy's global generator, the locations
    handed to [pd.read_csv] (latest first), the directories made, the
    files other than the log file, the records logged and the lines
    printed (latest first).  The records of [log] are what the handlers
    of the logger write to the console and append to the file at
    [log_file_path], which [disk] does not hold. *)
Record World := mkWorld {
  yaml_file : string -> result yaml;
  remote_csv : string -> result DataFrame;
  makedirs_fault : string -> option exn;
  write_fault : string -> option exn;
  write_leaves : string -> option csv;
  np_random : rng_state;
  fetched : list string;
  dirs : gset string;
  disk : gmap string csv;
  log : list (level * string);
  stdout : list string
}.

Definition set_np_random (r : rng_state) (w : World) : World :=
  mkWorld (yaml_file w) (remote_csv w) (makedirs_fault w) (write_fault w)
    (write_leaves w)
    r (fetched w) (dirs w) (disk w) (log w) (stdout w).

Definition set_fetched (f : list string) (w : World) : World :=
  mkWorld (yaml_file w) (remote_csv w) (makedirs_fault w) (write_fault w)
    (write_leaves w)
    (np_random w) f (dirs w) (disk w) (log w) (stdout w).

Definition set_dirs (d : gset string) (w : World) : World :=
  mkWorld (yaml_file w) (remote_csv w) (makedirs_fault w) (write_fault w)
    (write_leaves w)
    (np_random w) (fetched w) d (disk w) (log w) (stdout w).

Definition set_disk (d : gmap string csv) (w : World) : World :=
  mkWorld (yaml_file w) (remote_csv w) (makedirs_fault w) (write_fault w)
    (write_leaves w)
    (np_random w) (fetched w) (dirs w) d (log w) (stdout w).

Definition set_log (l : list (level * string)) (w : World) : World :=
  mkWorld (yaml_file w) (remote_csv w) (makedirs_fault w) (write_fault w)
    (write_leaves w)
    (np_random w) (fetched w) (dirs w) (disk w) l (stdout w).

Definition set_stdout (o : list string) (w : World) : World :=
  mkWorld (yaml_file w) (remote_csv w) (makedirs_fault w) (write_fault w)
    (write_leaves w)
    (np_random w) (fetched w) (dirs w) (disk w) (log w) o.

(** A computation: from a world to the world it leaves and its outcome.
    The state survives an exception. *)
Definition M (A : Type) : Type := World -> World * result A.

Definition ret {A} (a : A) : M A := fun w => (w, Ok a).

Definition raise {A} (e : exn) : M A := fun w => (w, Raise e).

Definition bind {A B} (c : M A) (k : A -> M B) : M B :=
  fun w =>
    match c w with
    | (w', Ok a) => k a w'
    | (w', Raise e) => (w', Raise e)
    end.

(** A pure call that may raise. *)
Definition lift {A} (r : result A) : M A := fun w => (w, r).

Notation "x <- c ;; k" := (bind c (fun x => k))
  (at level 100, c at next level, right associativity).
Notation "c ;;; k" := (bind c (fun _ => k))
  (at level 100, right associativity).

(** [try: body / except Exception as e: handler e].  An exception that
    is not an [Exception] passes through. *)
Definition try_except {A} (body : M A) (handler : exn -> M A) : M A :=
  fun w =>
    match body w with
    | (w', Ok a) => (w', Ok a)
    | (w', Raise e) => if is_Exception e then handler e w' else (w', Raise e)
    end.

(** [logger.debug], [logger.info], [logger.error] with the message
    already formatted: the record goes to the console and to the end of
    the log file; and [print]. *)
Definition logger (l : level) (msg : string) : M unit :=
  fun w => (set_log ((l, msg) :: log w) w, Ok tt).

Definition print (line : string) : M unit :=
  fun w => (set_stdout (line :: stdout w) w, Ok tt).

(** [open(path, 'r')] followed by [yaml.safe_load(file)]. *)
Definition open_safe_load (path : string) : M yaml :=
  fun w => (w, yaml_file w path).

(** [pd.read_csv(location)] *)
Definition read_csv (location : string) : M DataFrame :=
  fun w => (set_fetched (location :: fetched w) w, remote_csv w location).

(** ** The functions of the script *)

Definition load_params (params_path : string) : M yaml :=
  try_except
    (params <- open_safe_load params_path ;;
     logger DEBUG ("Parameters successfully loaded from " +:+ params_path) ;;;
     ret params)
    (fun e =>
       match exn_cls e with
       | FileNotFoundError =>
           logger ERROR ("YAML file not found at path: " +:+ params_path) ;;;
           raise e
       | YAMLError =>
           logger ERROR ("Failed to parse YAML file: " +:+ exn_str e) ;;;
           raise e
       | _ =>
           logger ERROR ("Unexpected error while loading parameters: " +:+ exn_str e) ;;;
           raise e
       end).

(** The location [load_data] reads for [data_url] (lines 58-59). *)
Definition resolve_url (data_url : string) : string :=
  if Py.str_in "github.com" data_url && negb (Py.str_in "raw" data_url)
  then Py.str_replace (Py.str_replace data_url "blob/" EmptyString)
         "github.com" "raw.githubusercontent.com"
  else data_url.

Definition load_data (data_url : string) : M DataFrame :=
  try_except
    (let data_url := resolve_url data_url in
     df <- read_csv data_url ;;
     logger DEBUG ("Data successfully loaded from " +:+ data_url) ;;;
     ret df)
    (fun e =>
       match exn_cls e with
       | ParserError =>
           logger ERROR ("CSV parsing error: " +:+ exn_str e) ;;; raise e
       | _ =>
           logger ERROR ("Unexpected error while loading data: " +:+ exn_str e) ;;;
           raise e
       end).

(** [df] is changed in place and returned: the table the caller passed
    and the table it gets back are one object, whose new value is the
    result here.  When [drop] raises, the object is as it was. *)
Definition preprocess_data (df : DataFrame) : M DataFrame :=
  try_except
    (df <- lift (Pandas.drop ["Unnamed: 2"; "Unnamed: 3"; "Unnamed: 4"] df) ;;
     let df := Pandas.rename {[ "v1" := "target"; "v2" := "text" ]} df in
     logger DEBUG "Data preprocessing completed successfully" ;;;
     ret df)
    (fun e =>
       match exn_cls e with
       | KeyError =>
           logger ERROR ("Missing expected column in dataset: " +:+ exn_str e) ;;;
           raise e
       | _ =>
           logger ERROR ("Unexpected error during data preprocessing: " +:+ exn_str e) ;;;
           raise e
       end).

(** [check_random_state(random_state).permutation(n)]: an integer seeds
    a generator of its own; [None] draws from numpy's global generator
    and advances it. *)
Definition rng_permutation (random_state : option Z) (n : nat) : M (list nat) :=
  fun w =>
    match random_state with
    | Some seed => (w, Ok (Numpy.permutation n (rng_seed seed)).1)
    | None =>
        let '(p, s) := Numpy.permutation n (np_random w) in
        (set_np_random s w, Ok p)
    end.

(** [train_test_split(df, test_size=test_size, random_state=random_state)]:
    the first [n_test] positions of a random permutation of the rows are
    the test partition, the next [n_train] the train partition. *)
Definition train_test_split (df : DataFrame) (test_size : yaml)
    (random_state : option Z) : M (DataFrame * DataFrame) :=
  sizes <- lift (Sklearn.validate_shuffle_split (nrows df) test_size) ;;
  let '(n_train, n_test) := sizes in
  permutation <- rng_permutation random_state (nrows df) ;;
  let ind_test := take n_test permutation in
  let ind_train := take n_train (drop n_test permutation) in
  train <- lift (Pandas.iloc df ind_train) ;;
  test <- lift (Pandas.iloc df ind_test) ;;
  ret (train, test).

(** [os.makedirs(path, exist_ok=True)] *)
Definition makedirs (path : string) : M unit :=
  fun w =>
    match makedirs_fault w path with
    | Some e => (w, Raise e)
    | None => (set_dirs ({[ path ]} ∪ dirs w) w, Ok tt)
    end.

(** [df.to_csv(path, index=False)]: creates or overwrites the file.  A
    write that fails after the file is opened leaves it created or
    truncated, with what was written of it; one that fails before leaves
    the file as it was. *)
Definition to_csv (df : DataFrame) (path : string) : M unit :=
  fun w =>
    match write_fault w path with
    | Some e =>
        match write_leaves w path with
        | Some partial => (set_disk (<[ path := partial ]> (disk w)) w, Raise e)
        | None => (w, Raise e)
        end
    | None => (set_disk (<[ path := columns df ]> (disk w)) w, Ok tt)
    end.

Definition save_data (train_data test_data : DataFrame) (data_path : string) : M unit :=
  try_except
    (let raw_data_path := Py.os_path_join data_path "raw" in
     makedirs raw_data_path ;;;
     to_csv train_data (Py.os_path_join raw_data_path "train.csv") ;;;
     to_csv test_data (Py.os_path_join raw_data_path "test.csv") ;;;
     logger DEBUG ("Train and test datasets saved to " +:+ raw_data_path))
    (fun e =>
       logger ERROR ("Unexpected error while saving datasets: " +:+ exn_str e) ;;;
       raise e).

(** [obj[key]] for a string [key], on what [yaml.safe_load] can return. *)
Definition getitem (obj : yaml) (key : string) : result yaml :=
  match obj with
  | YMap m =>
      match m !! key with
      | Some v => Ok v
      | None => Raise (Exn KeyError ("'" +:+ key +:+ "'"))
      end
  | YNull => Raise (Exn TypeError "'NoneType' object is not subscriptable")
  | YBool _ => Raise (Exn TypeError "'bool' object is not subscriptable")
  | YInt _ => Raise (Exn TypeError "'int' object is not subscriptable")
  | YFloat _ => Raise (Exn TypeError "'float' object is not subscriptable")
  | YStr _ => Raise (Exn TypeError "string indices must be integers")
  | YSeq _ => Raise (Exn TypeError "list indices must be integers or slices, not str")
  end.

Definition source_url : string :=
  "https://github.com/vikashishere/YT-MLOPS-Complete-ML-Pipeline/blob/main/experiments/spam.csv".

(** The [try] suite of [main] (lines 103-120). *)
Definition main_try : M unit :=
  logger INFO "Data ingestion process started." ;;;
  params <- load_params "params.yaml" ;;
  data_ingestion <- lift (getitem params "data_ingestion") ;;
  test_size <- lift (getitem data_ingestion "test_size") ;;
  let data_path := source_url in
  df <- load_data data_path ;;
  final_df <- preprocess_data df ;;
  parts <- train_test_split final_df test_size (Some 2) ;;
  let '(train_data, test_data) := parts in
  save_data train_data test_data "./data" ;;;
  logger INFO "Data ingestion completed successfully.".

Definition main : M unit :=
  try_except main_try
    (fun e =>
       logger ERROR ("Data ingestion failed: " +:+ exn_str e) ;;;
       print ("‚ùå Error: " +:+ exn_str e)).

End Pipeline.

(** ** Notions the properties are stated with *)

(** [sub] occurs in [s]. *)
Definition Substring (sub s : string) : Prop :=
  exists p q : string, s = p +:+ sub +:+ q.

(** The column labels [preprocess_data] drops, and the five it refers to. *)
Definition dropped_labels : list string :=
  ["Unnamed: 2"; "Unnamed: 3"; "Unnamed: 4"].

Definition referenced_labels : list string :=
  ["Unnamed: 2"; "Unnamed: 3"; "Unnamed: 4"; "v1"; "v2"].

(** The label a kept column bears after preprocessing. *)
Definition new_label (c : string) : string :=
  if decide (c = "v1") then "target"
  else if decide (c = "v2") then "text"
  else c.

(** The table [preprocess_data] returns when it returns one. *)
Definition preprocessed (df : DataFrame) : DataFrame :=
  mkDataFrame (index df)
    ((fun c => (new_label c.1, c.2)) <$>
       filter (fun c => c.1 ∉ dropped_labels) (columns df)).

(** The document has the nested key [data_ingestion.test_size]. *)
Definition has_test_size (params : yaml) : Prop :=
  exists (m m' : gmap string yaml) (v : yaml),
    params = YMap m /\
    m !! "data_ingestion" = Some (YMap m') /\
    m' !! "test_size" = Some v.

(** Whatever the environment of [w] raises is an [Exception]. *)
Definition raises_Exceptions `{G : RandomGen} (w : World) : Prop :=
  (forall p e, yaml_file w p = Raise e -> is_Exception e = true) /\
  (forall u e, remote_csv w u = Raise e -> is_Exception e = true) /\
  (forall p e, makedirs_fault w p = Some e -> is_Exception e = true) /\
  (forall p e, write_fault w p = Some e -> is_Exception e = true).

(** A computation that, run in a world whose environment raises only
    [Exception]s, leaves such a world and raises only [Exception]s. *)
Definition tame `{G : RandomGen} {A} (c : M A) : Prop :=
  forall w, raises_Exceptions w ->
    raises_Exceptions (c w).1 /\
    (forall e, (c w).2 = Raise e -> is_Exception e = true).

(** ** Sample inputs *)

(** A raw table of [n] rows with the five columns of the source file,
    and after them the columns [extra]. *)
Definition raw_table (n : nat) (extra : list (string * list cell)) : DataFrame :=
  mkDataFrame (Z.of_nat <$> seq 0 n)
    ([("v1", (fun i => Str (if Nat.even i then "ham" else "spam")) <$> seq 0 n);
      ("v2", (fun i => Int (Z.of_nat i)) <$> seq 0 n);
      ("Unnamed: 2", replicate n NaN);
      ("Unnamed: 3", replicate n NaN);
      ("Unnamed: 4", replicate n NaN)] ++ extra).

(** A table that has the three unnamed columns but neither [v1] nor [v2]. *)
Definition unnamed_only : DataFrame :=
  mkDataFrame [0; 1]
    [("Unnamed: 2", [NaN; NaN]); ("Unnamed: 3", [NaN; NaN]);
     ("Unnamed: 4", [NaN; NaN])].

(** [params.yaml] with [data_ingestion: {test_size: q}], [q] a decimal
    literal. *)
Definition config (q : Q) : yaml :=
  YMap {[ "data_ingestion" :=
            YMap {[ "test_size" := YFloat (Binary64.literal q) ]} ]}.

(** A world with the configuration [params] in [params.yaml], the table
    [df] at every location, no room for the files at the listed paths,
    so that a write to one of them fails after the open and leaves the
    file empty, and nothing done yet. *)
Definition sample_world (params : yaml) (df : DataFrame)
    (unwritable : list string) : World (G := lcg) :=
  mkWorld (G := lcg)
    (fun p => if String.eqb p "params.yaml" then Ok params
              else Raise (Exn FileNotFoundError "No such file or directory"))
    (fun _ => Ok df)
    (fun _ => None)
    (fun p => if bool_decide (p ∈ unwritable)
              then Some (Exn OSError "No space left on device") else None)
    (fun _ => Some [])
    0 [] ∅ ∅ [] [].

(** The scenario of the specification: [test_size: 0.2], a source of ten
    rows with the five columns; [world_full] is the same with a test.csv
    that cannot be written. *)
Definition world0 : World (G := lcg) :=
  sample_world (config (2 # 10)) (raw_table 10 []) [].

Definition world_full : World (G := lcg) :=
  sample_world (config (2 # 10)) (raw_table 10 []) ["./data/raw/test.csv"].

(** A configuration whose [data_ingestion] section is empty. *)
Definition config_without_test_size : yaml :=
  YMap {[ "data_ingestion" := YMap ∅ ]}.

(** ** Further notions and sample inputs *)

(** [c] leaves the part [f] of the world as it found it. *)
Definition keeps `{G : RandomGen} {A B} (f : World -> B) (c : M A) : Prop :=
  forall w, f (c w).1 = f w.

(** The location [main] reads and the two files it writes. *)
Definition raw_url : string :=
  "https://raw.githubusercontent.com/vikashishere/YT-MLOPS-Complete-ML-Pipeline/main/experiments/spam.csv".

Definition train_csv : string := "./data/raw/train.csv".

Definition test_csv : string := "./data/raw/test.csv".

(** The scenario with the source out of reach. *)
Definition world_offline : World (G := lcg) :=
  mkWorld (G := lcg) (yaml_file world0)
    (fun _ => Raise (Exn OtherException "HTTP Error 404: Not Found"))
    (makedirs_fault world0) (write_fault world0) (write_leaves world0)
    0 [] ∅ ∅ [] [].

(** The scenario without [params.yaml]. *)
Definition world_unconfigured : World (G := lcg) :=
  mkWorld (G := lcg)
    (fun _ => Raise (Exn FileNotFoundError "No such file or directory: 'params.yaml'"))
    (remote_csv world0) (makedirs_fault world0) (write_fault world0)
    (write_leaves world0) 0 [] ∅ ∅ [] [].

(** [c] only adds records to the log, and so only appends to the log
    file. *)
Definition appends_records `{G : RandomGen} {A} (c : M A) : Prop :=
  forall w, exists records : list (level * string),
    log (c w).1 = (records ++ log w)%list.

(** [c] reads no location, or [raw_url] once. *)
Definition reads_at_most_raw_url `{G : RandomGen} {A} (c : M A) : Prop :=
  forall w,
    fetched (c w).1 = fetched w \/ fetched (c w).1 = raw_url :: fetched w.

(** What the script reads of its environment. *)
Definition environment `{G : RandomGen} (w : World) :=
  (yaml_file w, remote_csv w, makedirs_fault w, write_fault w, write_leaves w).

(** The rows of a file at the given positions, in that order, under its
    header. *)
Definition rows_at (positions : list nat) (file : csv) : csv :=
  (fun c => (c.1, Pandas.take_positions positions c.2)) <$> file.

(** The scenarios on a disk that an earlier run and its user have
    written to. *)
Definition old_file : csv := [("target", [Str "ham"]); ("text", [Int 0])].

Definition disk_before : gmap string csv :=
  {[ "./data/raw/train.csv" := old_file;
     "./data/raw/test.csv" := old_file;
     "./data/notes.csv" := old_file ]}.

Definition world_rerun : World (G := lcg) := set_disk disk_before world0.

Definition world_rerun_full : World (G := lcg) := set_disk disk_before world_full.

(** The scenario with [test_size: 1.5]. *)
Definition world_oversized : World (G := lcg) :=
  sample_world (config (3 # 2)) (raw_table 10 []) [].

(** * Properties *)

(** ** Strings *)

Lemma append_nil_l (s : string) : EmptyString +:+ s = s.
Proof. reflexivity. Qed.

Lemma append_cons (a : Ascii.ascii) (s t : string) :
  String a s +:+ t = String a (s +:+ t).
Proof. reflexivity. Qed.

Lemma startswith_spec (s pre : string) :
  Py.startswith s pre = true <-> exists q, s = pre +:+ q.
Proof.
  revert s; induction pre as [|a pre IH]; intros s; simpl.
  - split; [intros _; by exists s | done].
  - destruct s as [|b s].
    + split; [done | intros [q Hq]; discriminate].
    + rewrite andb_true_iff, Ascii.eqb_eq, IH. split.
      * intros [-> [q ->]]. by exists q.
      * intros [q Hq]. rewrite append_cons in Hq. injection Hq as -> ->. eauto.
Qed.

Lemma str_in_spec (sub s : string) :
  Py.str_in sub s = true <-> Substring sub s.
Proof.
  unfold Substring. induction s as [|c s IH]; simpl.
  - rewrite orb_false_r, startswith_spec. split.
    + intros [q Hq]. by exists EmptyString, q.
    + intros [[|a p] [q Hq]]; [by exists q | discriminate].
  - rewrite orb_true_iff, startswith_spec, IH. split.
    + intros [[q Hq] | (p & q & ->)].
      * by exists EmptyString, q.
      * by exists (String c p), q.
    + intros [[|a p] [q Hq]].
      * left. by exists q.
      * right. rewrite append_cons in Hq. injection Hq as -> ->. eauto.
Qed.

Lemma str_in_false (sub s : string) :
  Py.str_in sub s = false <-> ~ Substring sub s.
Proof. rewrite <- str_in_spec. by destruct (Py.str_in sub s). Qed.

(** Passing over the rest of a matched occurrence. *)
Lemma replace_scan_skip (old new x r : string) :
  Py.replace_scan old new (String.length x) (x +:+ r)
  = Py.replace_scan old new 0 r.
Proof.
  induction x as [|a x IH]; [done|].
  rewrite append_cons. cbn [String.length Py.replace_scan]. apply IH.
Qed.

(** The three equations of [str.replace] for a non-empty [old]: an
    occurrence at the front is replaced and the scan goes on behind it; a
    character that starts no occurrence is kept; the empty string is
    left. *)
Lemma str_replace_match (old new r : string) :
  old <> EmptyString ->
  Py.str_replace (old +:+ r) old new = new +:+ Py.str_replace r old new.
Proof.
  destruct old as [|a old]; [done | intros _].
  unfold Py.str_replace. rewrite append_cons. cbn [Py.replace_scan].
  assert (Py.startswith (String a (old +:+ r)) (String a old) = true) as ->
    by (apply startswith_spec; eauto).
  replace (String.length (String a old) - 1)%nat with (String.length old)
    by (cbn [String.length]; lia).
  by rewrite replace_scan_skip.
Qed.

Lemma str_replace_keep (c : Ascii.ascii) (s old new : string) :
  old <> EmptyString ->
  Py.startswith (String c s) old = false ->
  Py.str_replace (String c s) old new = String c (Py.str_replace s old new).
Proof.
  destruct old as [|a old]; [done | intros _ H].
  unfold Py.str_replace. cbn [Py.replace_scan]. by rewrite H.
Qed.

Lemma str_replace_nil (old new : string) :
  old <> EmptyString -> Py.str_replace EmptyString old new = EmptyString.
Proof. by destruct old. Qed.

(** A string in which [old] does not occur is returned as it is. *)
Lemma str_replace_absent (s old new : string) :
  Py.str_in old s = false -> Py.str_replace s old new = s.
Proof.
  destruct old as [|a old].
  { destruct s; discriminate. }
  induction s as [|c s IH]; [done|].
  cbn [Py.str_in]. rewrite orb_false_iff. intros [Hs Hin].
  rewrite str_replace_keep by done. by rewrite IH.
Qed.

Lemma append_assoc (a b c : string) : (a +:+ b) +:+ c = a +:+ b +:+ c.
Proof. induction a as [|x a IH]; [done|]. rewrite !append_cons. by rewrite IH. Qed.

Lemma append_inj_l (p a b : string) : p +:+ a = p +:+ b -> a = b.
Proof.
  induction p as [|x p IH]; [done|]. rewrite !append_cons. intros [= H]. by apply IH.
Qed.

(** Joining a relative name to a directory puts a prefix before it that
    depends on the directory only. *)
Lemma os_path_join_relative (a : string) :
  exists pre : string, forall b : string,
    Py.startswith b "/" = false -> Py.os_path_join a b = pre +:+ b.
Proof.
  unfold Py.os_path_join. destruct a as [|c a].
  - exists EmptyString. by intros b ->.
  - destruct (Py.startswith (String.rev (String c a)) "/").
    + exists (String c a). by intros b ->.
    + exists (String c a +:+ "/"). intros b ->. by rewrite append_assoc.
Qed.

(** The two files of [save_data] are different files. *)
Lemma save_data_paths_differ (raw : string) :
  Py.os_path_join raw "train.csv" <> Py.os_path_join raw "test.csv".
Proof.
  destruct (os_path_join_relative raw) as [pre Hpre].
  rewrite !Hpre by done. by intros ?%append_inj_l.
Qed.

(** ** Running computations *)

Section Facts.

Context {G : RandomGen}.

Implicit Types (w : World) (df : DataFrame) (e : exn).

(** Unfolds the combinators of [M] in the goal. *)
Ltac run :=
  unfold try_except, bind, lift, ret, raise, logger, print; cbn beta iota.

Lemma load_data_fetched (url : string) w :
  fetched (load_data url w).1 = resolve_url url :: fetched w.
Proof.
  unfold load_data, read_csv. run. cbn [fst snd].
  destruct (remote_csv w (resolve_url url)) as [df|e]; [done|].
  destruct (is_Exception e); [|done].
  by destruct (exn_cls e).
Qed.

Lemma load_data_outcome (url : string) w :
  (load_data url w).2 = remote_csv w (resolve_url url).
Proof.
  unfold load_data, read_csv. run. cbn [fst snd].
  destruct (remote_csv w (resolve_url url)) as [df|e]; [done|].
  destruct (is_Exception e); [|done].
  by destruct (exn_cls e).
Qed.

(** C1: a location that mentions "github.com" and nowhere "raw" is
    fetched with every "blob/" removed and "github.com" replaced by
    "raw.githubusercontent.com"; a location that mentions "raw", or does
    not mention "github.com", is fetched as it is. *)
Theorem load_data_fetches (url : string) w :
  (Substring "github.com" url -> ~ Substring "raw" url ->
   fetched (load_data url w).1 =
     Py.str_replace (Py.str_replace url "blob/" EmptyString)
       "github.com" "raw.githubusercontent.com" :: fetched w) /\
  (Substring "raw" url \/ ~ Substring "github.com" url ->
   fetched (load_data url w).1 = url :: fetched w).
Proof.
  rewrite load_data_fetched. unfold resolve_url. split.
  - intros Hg%str_in_spec Hr%str_in_false. by rewrite Hg, Hr.
  - intros [Hr%str_in_spec | Hg%str_in_false].
    + by rewrite Hr, andb_false_r.
    + by rewrite Hg.
Qed.

(** ** Dropping and renaming columns *)

Lemma drop_present (labels : list string) df :
  (forall c, c ∈ labels -> c ∈ column_names df) ->
  Pandas.drop labels df =
    Ok (mkDataFrame (index df) (filter (fun c => c.1 ∉ labels) (columns df))).
Proof.
  intros Hall. unfold Pandas.drop.
  destruct (filter _ labels) as [|c missing] eqn:E; [done|].
  assert (c ∈ filter (fun l => l ∉ column_names df) labels) as Hc
    by (rewrite E; left).
  apply list_elem_of_filter in Hc as [Hc ?]. destruct Hc. by apply Hall.
Qed.

Lemma drop_absent (labels : list string) df (c : string) :
  c ∈ labels -> c ∉ column_names df ->
  exists msg, Pandas.drop labels df = Raise (Pandas.key_error msg).
Proof.
  intros Hin Hout. unfold Pandas.drop.
  assert (c ∈ filter (fun l => l ∉ column_names df) labels) as Hc
    by by apply list_elem_of_filter.
  destruct (filter _ labels) as [|c' missing]; [by apply elem_of_nil in Hc|].
  eauto.
Qed.

Lemma rename_new_label (c : string) :
  default c (({[ "v1" := "target"; "v2" := "text" ]} : gmap string string) !! c)
  = new_label c.
Proof.
  unfold new_label. destruct (decide (c = "v1")) as [->|?].
  - by rewrite lookup_insert_eq.
  - rewrite lookup_insert_ne by done. destruct (decide (c = "v2")) as [->|?].
    + by rewrite lookup_singleton_eq.
    + by rewrite lookup_singleton_ne.
Qed.

Lemma preprocess_data_accepts df w :
  (forall c, c ∈ dropped_labels -> c ∈ column_names df) ->
  preprocess_data df w =
    (set_log ((DEBUG, "Data preprocessing completed successfully") :: log w) w,
     Ok (preprocessed df)).
Proof.
  intros Hall. unfold preprocess_data. run.
  change ["Unnamed: 2"; "Unnamed: 3"; "Unnamed: 4"] with dropped_labels.
  rewrite (drop_present _ _ Hall). cbn beta iota.
  do 2 f_equal. unfold Pandas.rename, preprocessed. cbn [index columns].
  f_equal. apply list_fmap_ext. intros _ [c cells] _. cbn [fst snd].
  by rewrite rename_new_label.
Qed.

Lemma preprocess_data_rejects df w (c : string) :
  c ∈ dropped_labels -> c ∉ column_names df ->
  exists msg,
    preprocess_data df w =
      (set_log ((ERROR, "Missing expected column in dataset: "
                        +:+ exn_str (Pandas.key_error msg)) :: log w) w,
       Raise (Pandas.key_error msg)).
Proof.
  intros Hin Hout. unfold preprocess_data. run.
  change ["Unnamed: 2"; "Unnamed: 3"; "Unnamed: 4"] with dropped_labels.
  destruct (drop_absent _ _ _ Hin Hout) as [msg ->]. by exists msg.
Qed.

Lemma all_present_dec df :
  (forall c, c ∈ dropped_labels -> c ∈ column_names df) \/
  (exists c, c ∈ dropped_labels /\ c ∉ column_names df).
Proof.
  destruct (decide (Forall (fun c => c ∈ column_names df) dropped_labels))
    as [H|H].
  - left. by apply Forall_forall.
  - right. apply not_Forall_Exists in H; [|apply _].
    apply Exists_exists in H as (c & ? & ?). eauto.
Qed.

Lemma preprocess_data_Ok_inv df w df' :
  (preprocess_data df w).2 = Ok df' ->
  (forall c, c ∈ dropped_labels -> c ∈ column_names df) /\ df' = preprocessed df.
Proof.
  intros H. destruct (all_present_dec df) as [Hall | (c & Hin & Hout)].
  - rewrite preprocess_data_accepts in H by done. by injection H as <-.
  - destruct (preprocess_data_rejects df w c Hin Hout) as [msg Hr].
    by rewrite Hr in H.
Qed.

Lemma filter_fst {A B} (P : A -> Prop) `{forall a, Decision (P a)}
    (l : list (A * B)) :
  (filter (fun c => P c.1) l).*1 = filter P (l.*1).
Proof.
  induction l as [|[a b] l IH]; [done|].
  rewrite fmap_cons, !filter_cons. cbn [fst].
  case_decide; [rewrite fmap_cons; cbn [fst]|]; by rewrite IH.
Qed.

Lemma column_names_preprocessed df :
  column_names (preprocessed df) =
    new_label <$> filter (fun c => c ∉ dropped_labels) (column_names df).
Proof.
  unfold column_names, preprocessed. cbn [columns].
  rewrite <- (filter_fst (fun c => c ∉ dropped_labels)).
  rewrite <- !list_fmap_compose. by apply list_fmap_ext.
Qed.

Lemma new_label_not_dropped (c : string) :
  c ∉ dropped_labels -> new_label c ∉ dropped_labels.
Proof.
  unfold new_label. intros Hc.
  destruct (decide (c = "v1")); [|destruct (decide (c = "v2"))]; [| |done];
    by apply (bool_decide_unpack _).
Qed.

Lemma preprocessed_no_dropped df (c : string) :
  c ∈ dropped_labels -> c ∉ column_names (preprocessed df).
Proof.
  intros Hin. rewrite column_names_preprocessed.
  intros (x & -> & Hx)%list_elem_of_fmap.
  apply list_elem_of_filter in Hx as [Hx _].
  by apply new_label_not_dropped in Hx.
Qed.

(** C2, as the code has it: [preprocess_data] raises [KeyError] exactly
    when one of the three labels it drops is borne by no column of the
    table; whether the table has the columns "v1" and "v2" plays no part. *)
Theorem preprocess_data_raises_iff df w :
  (exists c, c ∈ dropped_labels /\ c ∉ column_names df) <->
  (exists e, (preprocess_data df w).2 = Raise e /\ exn_cls e = KeyError).
Proof.
  split.
  - intros (c & Hin & Hout).
    destruct (preprocess_data_rejects df w c Hin Hout) as [msg ->].
    by eexists.
  - intros (e & He & _).
    destruct (all_present_dec df) as [Hall|?]; [|done].
    by rewrite preprocess_data_accepts in He.
Qed.

(** C3, as the code has it: the table returned is the raw table without
    the columns labelled "Unnamed: 2", "Unnamed: 3", "Unnamed: 4", with
    "v1" relabelled "target" and "v2" relabelled "text", every other
    column kept under its label; when the raw table has the five
    referenced columns and no other, two columns remain, "target" and
    "text". *)
Theorem preprocess_data_columns df w df' :
  (preprocess_data df w).2 = Ok df' ->
  index df' = index df /\
  columns df' =
    (fun c => (new_label c.1, c.2)) <$>
      filter (fun c => c.1 ∉ dropped_labels) (columns df) /\
  (column_names df ≡ₚ referenced_labels ->
   column_names df' ≡ₚ ["target"; "text"]).
Proof.
  intros [_ ->]%preprocess_data_Ok_inv. split; [done|]. split; [done|].
  intros Hperm. rewrite column_names_preprocessed, Hperm. reflexivity.
Qed.

(** C7: after a successful application no column bears a dropped label,
    and a second application, in whatever world, raises [KeyError]. *)
Theorem preprocess_data_twice df w df' w' :
  (preprocess_data df w).2 = Ok df' ->
  (forall c, c ∈ dropped_labels -> c ∉ column_names df') /\
  (exists e, (preprocess_data df' w').2 = Raise e /\ exn_cls e = KeyError).
Proof.
  intros [_ ->]%preprocess_data_Ok_inv. split.
  - intros c. apply preprocessed_no_dropped.
  - assert ("Unnamed: 2" ∈ dropped_labels) as Hin by left.
    destruct (preprocess_data_rejects (preprocessed df) w' _ Hin
                (preprocessed_no_dropped df _ Hin)) as [msg ->].
    by eexists.
Qed.

(** C9: a successful application keeps the row labels, hence the number
    of rows and their order; the cells of the columns kept are as they
    were, column by column; and the cells of each column "v1" are those
    of a column "target" of the result, the cells of each column "v2"
    those of a column "text". *)
Theorem preprocess_data_rows df w df' :
  (preprocess_data df w).2 = Ok df' ->
  index df' = index df /\
  nrows df' = nrows df /\
  (columns df').*2 = (filter (fun c => c.1 ∉ dropped_labels) (columns df)).*2 /\
  (forall cells, ("v1", cells) ∈ columns df -> ("target", cells) ∈ columns df') /\
  (forall cells, ("v2", cells) ∈ columns df -> ("text", cells) ∈ columns df').
Proof.
  intros [_ ->]%preprocess_data_Ok_inv.
  split; [done|]. split; [done|]. split.
  { unfold preprocessed. cbn [columns].
    rewrite <- list_fmap_compose. by apply list_fmap_ext. }
  split; intros cells Hin; unfold preprocessed; cbn [columns].
  - apply (list_elem_of_fmap_2' _ _ ("v1", cells)); [|done].
    apply list_elem_of_filter. split; [|done].
    by apply (bool_decide_unpack _).
  - apply (list_elem_of_fmap_2' _ _ ("v2", cells)); [|done].
    apply list_elem_of_filter. split; [|done].
    by apply (bool_decide_unpack _).
Qed.

(** ** Shuffling *)

Lemma swap_perm (x : list nat) (i j : nat) : Numpy.swap x i j ≡ₚ x.
Proof.
  unfold Numpy.swap.
  destruct (x !! i) as [a|] eqn:Hi; [|done].
  destruct (x !! j) as [b|] eqn:Hj; [|done].
  by apply Permutation_insert_swap.
Qed.

Lemma shuffle_from_perm (i : nat) (x : list nat) (s : rng_state) :
  (Numpy.shuffle_from i x s).1 ≡ₚ x.
Proof.
  revert x s. induction i as [|i IH]; intros x s; [done|].
  cbn [Numpy.shuffle_from].
  destruct (random_interval s (S i)) as [j s'].
  by rewrite IH, swap_perm.
Qed.

(** [rng.permutation(n)] is a permutation of the positions [0 .. n-1]. *)
Lemma permutation_perm (n : nat) (s : rng_state) :
  (Numpy.permutation n s).1 ≡ₚ seq 0 n.
Proof. apply shuffle_from_perm. Qed.

Lemma rng_permutation_perm (random_state : option Z) (n : nat) w :
  exists p, (rng_permutation random_state n w).2 = Ok p /\ p ≡ₚ seq 0 n.
Proof.
  unfold rng_permutation. destruct random_state as [seed|].
  - eexists. split; [done|]. apply permutation_perm.
  - pose proof (permutation_perm n (np_random w)) as Hp.
    destruct (Numpy.permutation n (np_random w)) as [p s]. by exists p.
Qed.

(** A generator seeded in the call leaves the world as it is. *)
Lemma rng_permutation_seeded (seed : Z) (n : nat) w :
  rng_permutation (Some seed) n w =
    (w, Ok (Numpy.permutation n (rng_seed seed)).1).
Proof. done. Qed.

(** ** Selecting rows *)

Lemma length_take_positions {A} (positions : list nat) (l : list A) :
  Forall (fun i => i < length l)%nat positions ->
  length (Pandas.take_positions positions l) = length positions.
Proof.
  unfold Pandas.take_positions.
  induction 1 as [|i positions Hi _ IH]; [done|].
  cbn [omap list_omap]. destruct (lookup_lt_is_Some_2 l i Hi) as [a ->].
  cbn [length]. by f_equal.
Qed.

Lemma iloc_in_range df (positions : list nat) :
  Forall (fun i => i < nrows df)%nat positions ->
  exists part,
    Pandas.iloc df positions = Ok part /\ nrows part = length positions.
Proof.
  intros Hall. unfold Pandas.iloc.
  assert (forallb (fun i => i <? nrows df)%nat positions = true) as ->.
  { apply Is_true_eq_true, forallb_True. eapply Forall_impl; [done|].
    intros i Hi. by apply Is_true_true, Nat.ltb_lt. }
  eexists. split; [done|]. unfold nrows at 1. cbn [index].
  by apply length_take_positions.
Qed.

(** ** Well-formed tables stay well-formed *)

Lemma preprocessed_well_formed df : well_formed df -> well_formed (preprocessed df).
Proof.
  unfold well_formed, preprocessed. cbn [index columns]. intros Hwf.
  apply Forall_fmap, Forall_forall. intros c [_ Hc]%list_elem_of_filter.
  rewrite Forall_forall in Hwf. unfold compose. cbn [snd]. by apply Hwf.
Qed.

Lemma iloc_well_formed df (positions : list nat) (part : DataFrame) :
  well_formed df -> Pandas.iloc df positions = Ok part -> well_formed part.
Proof.
  unfold Pandas.iloc, well_formed. intros Hwf.
  destruct (forallb _ positions) eqn:Hall; [|done]. intros [= <-].
  cbn [index columns].
  assert (Forall (fun i => i < length (index df))%nat positions) as Hrange.
  { apply Forall_forall. intros i Hi.
    rewrite forallb_forall in Hall. apply Nat.ltb_lt, Hall.
    by apply list_elem_of_In. }
  apply Forall_fmap, Forall_forall. intros c Hc. unfold compose. cbn [snd].
  rewrite Forall_forall in Hwf. specialize (Hwf c Hc).
  rewrite (length_take_positions positions (index df)) by done.
  rewrite (length_take_positions positions c.2) by (by rewrite Hwf).
  done.
Qed.

(** ** Partition sizes *)

(** A float strictly between 0 and 1 passes the range check. *)
Lemma unit_interval_check (f : spec_float) :
  Binary64.ltb (Binary64.of_int 0) f = true ->
  Binary64.ltb f (Binary64.of_int 1) = true ->
  Binary64.leb f (Binary64.of_int 0) || Binary64.leb (Binary64.of_int 1) f = false.
Proof.
  assert (Binary64.of_int 1 = S754_finite false 4503599627370496 (-52)) as ->
    by (vm_compute; reflexivity).
  assert (Binary64.of_int 0 = S754_zero false) as -> by reflexivity.
  unfold Binary64.ltb, Binary64.leb, SFltb, SFleb.
  destruct f as [s|s| |s m e]; try done.
  - by destruct s.
  - destruct s; [done|]. intros _. cbn [SFcompare orb].
    rewrite (Z.compare_antisym e (-52)).
    destruct (e ?= -52) eqn:He; cbn [CompOpp]; try done.
    change (PosDef.Pos.compare_cont Eq 4503599627370496 m)
      with (Pos.compare_cont (CompOpp Eq) 4503599627370496 m).
    rewrite <- (Pos.compare_cont_antisym m 4503599627370496 Eq).
    by destruct (Pos.compare_cont Eq m 4503599627370496).
Qed.

(** [math.ceil] of a float is within one of the number the float is. *)
Lemma ceil_value (x : spec_float) (k : Z) :
  Binary64.ceil x = Ok k ->
  exists p : Q,
    Binary64.value x = Some p /\ (p <= inject_Z k)%Q /\ (inject_Z k < p + 1)%Q.
Proof.
  assert (forall p : Q,
    (p <= inject_Z (Qceiling p))%Q /\ (inject_Z (Qceiling p) < p + 1)%Q) as Hc.
  { intros p. split; [apply Qle_ceiling|].
    pose proof (Qceiling_lt p) as Hlt.
    unfold Z.sub in Hlt. rewrite inject_Z_plus in Hlt.
    change (inject_Z (- (1))) with (- (1))%Q in Hlt. lra. }
  destruct x as [s|s| |s m e]; cbn [Binary64.ceil Binary64.value]; try done.
  - intros [= <-]. exists 0%Q. split; [done|]. split; [apply Qle_refl | reflexivity].
  - intros [= <-]. eexists. split; [reflexivity|]. apply Hc.
Qed.

(** The sizes for a fraction [f] of [n] rows, [k] being
    [ceil(f * n)] as computed in binary64. *)
Lemma validate_fraction (n : nat) (f : spec_float) (k : Z) :
  Binary64.ltb (Binary64.of_int 0) f = true ->
  Binary64.ltb f (Binary64.of_int 1) = true ->
  Binary64.ceil (Binary64.mul f (Binary64.of_int (Z.of_nat n))) = Ok k ->
  (0 < k < Z.of_nat n ->
   Sklearn.validate_shuffle_split n (YFloat f)
   = Ok (Z.to_nat (Z.of_nat n - k), Z.to_nat k)) /\
  (k <= 0 \/ Z.of_nat n <= k ->
   exists msg,
     Sklearn.validate_shuffle_split n (YFloat f)
     = Raise (Sklearn.value_error msg)).
Proof.
  intros Hf0 Hf1 Hk. unfold Sklearn.validate_shuffle_split.
  rewrite (unit_interval_check f Hf0 Hf1), Hk. split; intros Hcmp.
  - assert ((Z.of_nat n - k =? 0) = false) as -> by lia.
    assert ((Z.of_nat n - k <? 0) = false) as -> by lia.
    assert ((k <=? 0) = false) as -> by lia. done.
  - destruct (Z.of_nat n - k =? 0) eqn:E; [eauto|]. apply Z.eqb_neq in E.
    assert ((Z.of_nat n - k <? 0) || (k <=? 0) = true) as ->; [|eauto].
    apply orb_true_iff. destruct Hcmp; [right | left]; lia.
Qed.

(** ** Splitting *)

(** What [train_test_split] returns once the partition sizes are valid. *)
Lemma train_test_split_sized df (test_size : yaml) (random_state : option Z) w
    (n_train n_test : nat) :
  Sklearn.validate_shuffle_split (nrows df) test_size = Ok (n_train, n_test) ->
  (n_test + n_train = nrows df)%nat ->
  exists train test ind_train ind_test,
    (train_test_split df test_size random_state w).2 = Ok (train, test) /\
    Pandas.iloc df ind_train = Ok train /\
    Pandas.iloc df ind_test = Ok test /\
    ind_test ++ ind_train ≡ₚ seq 0 (nrows df) /\
    nrows train = n_train /\ nrows test = n_test.
Proof.
  intros Hsizes Hsum. unfold train_test_split. run. rewrite Hsizes.
  destruct (rng_permutation_perm random_state (nrows df) w) as (p & Hp & Hperm).
  destruct (rng_permutation random_state (nrows df) w) as [w1 r].
  cbn [snd] in Hp. subst r.
  assert (length p = nrows df) as Hlen
    by (by rewrite Hperm, length_seq).
  assert (take n_train (drop n_test p) = drop n_test p) as Htake
    by (apply take_ge; rewrite length_drop; lia).
  rewrite Htake.
  assert (Forall (fun i => i < nrows df)%nat p) as Hrange.
  { apply Forall_forall. intros i Hi. rewrite Hperm in Hi.
    apply elem_of_seq in Hi. lia. }
  destruct (iloc_in_range df (drop n_test p)) as (train & Htrain & Hntrain);
    [by apply Forall_drop|].
  destruct (iloc_in_range df (take n_test p)) as (test & Htest & Hntest);
    [by apply Forall_take|].
  exists train, test, (drop n_test p), (take n_test p).
  rewrite Htrain, Htest. cbn [snd].
  rewrite take_drop, Hntrain, Hntest, length_drop, length_take.
  repeat split; [done | lia | lia].
Qed.

(** C4, as the code has it: for a table of [n] rows and a float [f]
    strictly between 0 and 1, let [k] be [ceil(f * n)], the product
    taken in binary64 as the library takes it.  When [0 < k < n] the
    split returns a train and a test partition that are rows of the
    table at positions which together are the positions [0 .. n-1], each
    once; their row counts sum to [n]; the test partition has [k] rows,
    which is within one row of the product; for 10 rows and [f = 0.2]
    that is 8 and 2 rows.  Otherwise a partition would be empty, as for
    a table of one row, and the split raises [ValueError].  A product
    that [math.ceil] does not take makes the split raise what
    [math.ceil] raises. *)
Theorem train_test_split_partition df (f : spec_float)
    (random_state : option Z) w :
  let n := nrows df in
  let product := Binary64.mul f (Binary64.of_int (Z.of_nat n)) in
  Binary64.valid f = true ->
  Binary64.ltb (Binary64.of_int 0) f = true ->
  Binary64.ltb f (Binary64.of_int 1) = true ->
  match Binary64.ceil product with
  | Ok k =>
      (0 < k < Z.of_nat n ->
       exists train test ind_train ind_test,
         (train_test_split df (YFloat f) random_state w).2 = Ok (train, test) /\
         Pandas.iloc df ind_train = Ok train /\
         Pandas.iloc df ind_test = Ok test /\
         ind_test ++ ind_train ≡ₚ seq 0 n /\
         (forall i, i ∈ ind_test -> i ∉ ind_train) /\
         (nrows train + nrows test = n)%nat /\
         Z.of_nat (nrows test) = k /\
         (exists p : Q,
            Binary64.value product = Some p /\
            (p <= inject_Z (Z.of_nat (nrows test)))%Q /\
            (inject_Z (Z.of_nat (nrows test)) < p + 1)%Q) /\
         (n = 10%nat -> f = Binary64.literal (2 # 10) ->
          nrows train = 8%nat /\ nrows test = 2%nat)) /\
      (k <= 0 \/ Z.of_nat n <= k ->
       exists e,
         (train_test_split df (YFloat f) random_state w).2 = Raise e /\
         exn_cls e = ValueError)
  | Raise e => (train_test_split df (YFloat f) random_state w).2 = Raise e
  end.
Proof.
  intros n product _ Hf0 Hf1.
  destruct (Binary64.ceil product) as [k|e] eqn:Hk.
  - destruct (validate_fraction n f k Hf0 Hf1 Hk) as [Hok Hbad].
    split; intros Hcmp.
    + destruct (train_test_split_sized df (YFloat f) random_state w _ _ (Hok Hcmp))
        as (train & test & ind_train & ind_test & Hr & Htr & Hte & Hperm & Hn1 & Hn2);
        [fold n; lia|].
      exists train, test, ind_train, ind_test.
      assert (Z.of_nat (nrows test) = k) as Htest by lia.
      split; [done|]. split; [done|]. split; [done|]. split; [done|].
      split.
      { intros i Hi1 Hi2.
        assert (NoDup (ind_test ++ ind_train)) as Hnd
          by (rewrite Hperm; apply NoDup_seq).
        apply NoDup_app in Hnd as (_ & Hdisj & _). by apply (Hdisj i). }
      split; [fold n; lia|]. split; [done|]. split.
      { rewrite Htest. by apply ceil_value. }
      intros Hn ->. unfold product, n in Hk. unfold n in Hn. rewrite Hn in Hk.
      vm_compute in Hk. injection Hk as <-. lia.
    + destruct (Hbad Hcmp) as [msg Hmsg]. exists (Sklearn.value_error msg).
      split; [|done]. unfold train_test_split. run. fold n. by rewrite Hmsg.
  - unfold train_test_split, Sklearn.validate_shuffle_split. run. fold n.
    fold product. by rewrite (unit_interval_check f Hf0 Hf1), Hk.
Qed.

(** C5: with the seed given in the call, the partitions do not depend on
    the world the split runs in, the split leaves the world as it found
    it, and a second run returns what the first returned. *)
Theorem train_test_split_deterministic df (test_size : yaml) w1 w2 :
  (train_test_split df test_size (Some 2) w1).2
  = (train_test_split df test_size (Some 2) w2).2 /\
  (train_test_split df test_size (Some 2) w1).1 = w1 /\
  (train_test_split df test_size (Some 2)
     (train_test_split df test_size (Some 2) w1).1).2
  = (train_test_split df test_size (Some 2) w1).2.
Proof.
  assert (forall w,
    train_test_split df test_size (Some 2) w
    = (w, (train_test_split df test_size (Some 2) w1).2)) as Hw.
  { intros w. unfold train_test_split. run.
    destruct (Sklearn.validate_shuffle_split (nrows df) test_size)
      as [[n_train n_test]|e]; [|done].
    rewrite !rng_permutation_seeded. cbn beta iota.
    destruct (Pandas.iloc df (take n_train _)) as [train|e]; [|done].
    by destruct (Pandas.iloc df (take n_test _)) as [test|e]. }
  split; [by rewrite (Hw w2)|]. split; [by rewrite (Hw w1)|].
  by rewrite (Hw (train_test_split df test_size (Some 2) w1).1).
Qed.

(** ** Saving *)

(** C10: when the directory can be made and train.csv written but the
    write of test.csv fails, [save_data] raises that failure; train.csv
    then holds the train partition, created or overwritten, and the
    directory is there: nothing is rolled back.  The log file gains the
    record of the failure, when it is an [Exception]; no file other
    than train.csv, test.csv and the log file has changed. *)
Theorem save_data_not_atomic (train_data test_data : DataFrame)
    (data_path : string) w e :
  let raw := Py.os_path_join data_path "raw" in
  let train_csv := Py.os_path_join raw "train.csv" in
  let test_csv := Py.os_path_join raw "test.csv" in
  let w' := (save_data train_data test_data data_path w).1 in
  makedirs_fault w raw = None ->
  write_fault w train_csv = None ->
  write_fault w test_csv = Some e ->
  (save_data train_data test_data data_path w).2 = Raise e /\
  disk w' !! train_csv = Some (columns train_data) /\
  raw ∈ dirs w' /\
  log w' =
    (if is_Exception e
     then (ERROR, "Unexpected error while saving datasets: " +:+ exn_str e)
          :: log w
     else log w) /\
  (forall p, p <> train_csv -> p <> test_csv -> p <> log_file_path ->
     disk w' !! p = disk w !! p).
Proof.
  intros raw train_csv test_csv w' Hdir Htrain Htest. subst w'.
  pose proof (save_data_paths_differ raw) as Hne. fold train_csv test_csv in Hne.
  unfold save_data, makedirs, to_csv. run. fold raw. fold train_csv test_csv.
  rewrite Hdir. cbn [write_fault write_leaves set_dirs]. rewrite Htrain.
  cbn [write_fault write_leaves set_dirs set_disk]. rewrite Htest.
  destruct (write_leaves w test_csv) as [partial|]; destruct (is_Exception e);
    cbn [fst snd disk dirs log set_log set_disk set_dirs];
    (split; [done|]); (split; [|split; [set_solver|split; [done|]]]);
    try (by rewrite lookup_insert_eq);
    try (by rewrite lookup_insert_ne, lookup_insert_eq);
    intros p H1 H2 _; by rewrite ?lookup_insert_ne.
Qed.

(** ** The configuration *)

Lemma load_params_Ok (params_path : string) w (params : yaml) :
  yaml_file w params_path = Ok params ->
  load_params params_path w =
    (set_log ((DEBUG, "Parameters successfully loaded from " +:+ params_path)
              :: log w) w, Ok params).
Proof. intros H. unfold load_params, open_safe_load. run. by rewrite H. Qed.

(** Looking up a key raises [KeyError] or [TypeError] if it raises. *)
Lemma getitem_Raise (obj : yaml) (key : string) e :
  getitem obj key = Raise e -> exn_cls e = KeyError \/ exn_cls e = TypeError.
Proof.
  destruct obj; cbn [getitem]; try (intros [= <-]; by right).
  destruct (m !! key); [done|]. intros [= <-]. by left.
Qed.

Lemma getitem_Ok (obj : yaml) (key : string) (v : yaml) :
  getitem obj key = Ok v <-> exists m, obj = YMap m /\ m !! key = Some v.
Proof.
  split.
  - destruct obj; cbn [getitem]; try done.
    destruct (m !! key) as [v'|] eqn:E; [|done]. intros [= <-]. eauto.
  - intros (m & -> & Hm). cbn [getitem]. by rewrite Hm.
Qed.

(** Without the nested key, the lookups of line 107 raise. *)
Lemma lookup_test_size_Raise (params : yaml) :
  ~ has_test_size params ->
  exists e,
    (exn_cls e = KeyError \/ exn_cls e = TypeError) /\
    (getitem params "data_ingestion" = Raise e \/
     exists d, getitem params "data_ingestion" = Ok d /\
               getitem d "test_size" = Raise e).
Proof.
  intros Hno.
  destruct (getitem params "data_ingestion") as [d|e] eqn:Hd.
  - destruct (getitem d "test_size") as [v|e] eqn:Hv.
    + destruct Hno.
      apply getitem_Ok in Hd as (m & -> & Hm).
      apply getitem_Ok in Hv as (m' & -> & Hm').
      by exists m, m', v.
    + exists e. split; [by eapply getitem_Raise|]. right. by exists d.
  - exists e. split; [by eapply getitem_Raise|]. by left.
Qed.

(** C6: when [params.yaml] loads but has no nested key
    [data_ingestion.test_size], the lookup of line 107 raises [KeyError]
    or [TypeError]; [main] logs it and returns; no location has been
    handed to [pd.read_csv], no file has been written, and the log holds
    no record of [load_data]. *)
Theorem main_missing_test_size w (params : yaml) :
  yaml_file w "params.yaml" = Ok params ->
  ~ has_test_size params ->
  exists e,
    (main_try w).2 = Raise e /\
    (exn_cls e = KeyError \/ exn_cls e = TypeError) /\
    fetched (main w).1 = fetched w /\
    disk (main w).1 = disk w /\
    log (main w).1 =
      (ERROR, "Data ingestion failed: " +:+ exn_str e)
      :: (DEBUG, "Parameters successfully loaded from params.yaml")
      :: (INFO, "Data ingestion process started.") :: log w.
Proof.
  intros Hyaml Hno.
  destruct (lookup_test_size_Raise params Hno) as (e & Hcls & Hget).
  assert (is_Exception e = true) as Hexc
    by (unfold is_Exception; by destruct Hcls as [-> | ->]).
  exists e.
  assert (main_try w =
    (set_log ((DEBUG, "Parameters successfully loaded from params.yaml")
              :: (INFO, "Data ingestion process started.") :: log w) w,
     Raise e)) as Htry.
  { unfold main_try. run.
    rewrite (load_params_Ok _ _ params) by done. cbn beta iota.
    destruct Hget as [-> | (d & -> & ->)]; done. }
  unfold main. run. rewrite Htry, Hexc. by cbn.
Qed.

(** ** What can be raised *)

Lemma tame_ret {A} (a : A) : tame (ret a).
Proof. intros w Hw. by split. Qed.

Lemma tame_raise {A} e : is_Exception e = true -> tame (raise (A := A) e).
Proof. intros He w Hw. split; [done|]. by intros ? [= <-]. Qed.

Lemma tame_lift {A} (r : result A) :
  (forall e, r = Raise e -> is_Exception e = true) -> tame (lift r).
Proof. intros Hr w Hw. by split. Qed.

Lemma tame_bind {A B} (c : M A) (k : A -> M B) :
  tame c -> (forall a, tame (k a)) -> tame (bind c k).
Proof.
  intros Hc Hk w Hw. unfold bind.
  destruct (Hc w Hw) as [Hw' He]. destruct (c w) as [w' [a|e]].
  - by apply Hk.
  - split; [done|]. intros e' [= <-]. by apply He.
Qed.

Lemma tame_try_except {A} (body : M A) (handler : exn -> M A) :
  tame body ->
  (forall e, is_Exception e = true -> tame (handler e)) ->
  tame (try_except body handler).
Proof.
  intros Hb Hh w Hw. unfold try_except.
  destruct (Hb w Hw) as [Hw' He]. destruct (body w) as [w' [a|e]].
  - by split.
  - cbn [fst snd] in *. rewrite (He e eq_refl). apply Hh; [by apply He | done].
Qed.

Lemma tame_logger (l : level) (msg : string) : tame (logger l msg).
Proof. intros w Hw. by split. Qed.

Lemma tame_print (line : string) : tame (print line).
Proof. intros w Hw. by split. Qed.

Lemma tame_open_safe_load (path : string) : tame (open_safe_load path).
Proof. intros w Hw. split; [done|]. intros e. apply Hw. Qed.

Lemma tame_read_csv (location : string) : tame (read_csv location).
Proof. intros w Hw. split; [done|]. intros e. apply Hw. Qed.

Lemma tame_makedirs (path : string) : tame (makedirs path).
Proof.
  intros w Hw. unfold makedirs.
  destruct (makedirs_fault w path) as [e|] eqn:E; [|by split].
  split; [done|]. intros e' [= <-]. destruct Hw as (_ & _ & Hm & _). eauto.
Qed.

Lemma tame_to_csv df (path : string) : tame (to_csv df path).
Proof.
  intros w Hw. unfold to_csv.
  destruct (write_fault w path) as [e|] eqn:E; [|by split].
  destruct Hw as (? & ? & ? & Hm).
  destruct (write_leaves w path); (split; [done|]); intros e' [= <-]; eauto.
Qed.

Lemma tame_rng_permutation (random_state : option Z) (n : nat) :
  tame (rng_permutation random_state n).
Proof.
  intros w Hw. unfold rng_permutation. destruct random_state; [by split|].
  by destruct (Numpy.permutation n (np_random w)).
Qed.

(** Logging the failure and raising it again, as every handler of the
    stages does. *)
Lemma tame_log_raise {A} (msg : string) e :
  is_Exception e = true ->
  tame (bind (logger ERROR msg) (fun _ => raise (A := A) e)).
Proof. intros He. apply tame_bind; [apply tame_logger|]. intros _. by apply tame_raise. Qed.

Create HintDb tame.

#[local] Hint Resolve tame_ret tame_logger tame_print tame_open_safe_load
  tame_read_csv tame_makedirs tame_to_csv tame_rng_permutation
  tame_log_raise : tame.

Ltac tame_step :=
  first [ apply tame_try_except | apply tame_bind | intro ]; eauto with tame.

Lemma tame_load_params (params_path : string) : tame (load_params params_path).
Proof.
  unfold load_params. apply tame_try_except.
  - repeat tame_step.
  - intros e He. destruct (exn_cls e); eauto with tame.
Qed.

Lemma tame_load_data (data_url : string) : tame (load_data data_url).
Proof.
  unfold load_data. apply tame_try_except.
  - repeat tame_step.
  - intros e He. destruct (exn_cls e); eauto with tame.
Qed.

Lemma tame_preprocess_data df : tame (preprocess_data df).
Proof.
  unfold preprocess_data. apply tame_try_except.
  - apply tame_bind; [|repeat tame_step].
    apply tame_lift. unfold Pandas.drop. intros e.
    destruct (filter _ _); [done|]. by intros [= <-].
  - intros e He. destruct (exn_cls e); eauto with tame.
Qed.

Lemma ceil_Raise (x : spec_float) e :
  Binary64.ceil x = Raise e -> is_Exception e = true.
Proof. destruct x; cbn [Binary64.ceil]; try done; by intros [= <-]. Qed.

Lemma validate_shuffle_split_Raise (n : nat) (test_size : yaml) e :
  Sklearn.validate_shuffle_split n test_size = Raise e -> is_Exception e = true.
Proof.
  unfold Sklearn.validate_shuffle_split.
  destruct test_size; repeat case_match; intros [= <-]; try done;
    by eapply ceil_Raise.
Qed.

Lemma iloc_Raise df (positions : list nat) e :
  Pandas.iloc df positions = Raise e -> exn_cls e = IndexError.
Proof. unfold Pandas.iloc. case_match; by intros [= <-]. Qed.

Lemma tame_train_test_split df (test_size : yaml) (random_state : option Z) :
  tame (train_test_split df test_size random_state).
Proof.
  unfold train_test_split. apply tame_bind.
  { apply tame_lift. intros e He. by eapply validate_shuffle_split_Raise. }
  intros [n_train n_test]. apply tame_bind; [eauto with tame|]. intros p.
  apply tame_bind.
  { apply tame_lift. intros e He%iloc_Raise. unfold is_Exception. by rewrite He. }
  intros train. apply tame_bind; [|eauto with tame].
  apply tame_lift. intros e He%iloc_Raise. unfold is_Exception. by rewrite He.
Qed.

Lemma tame_save_data (train_data test_data : DataFrame) (data_path : string) :
  tame (save_data train_data test_data data_path).
Proof.
  unfold save_data. apply tame_try_except.
  - repeat tame_step.
  - eauto with tame.
Qed.

Lemma tame_getitem (obj : yaml) (key : string) : tame (lift (getitem obj key)).
Proof.
  apply tame_lift. intros e He%getitem_Raise.
  unfold is_Exception. by destruct He as [-> | ->].
Qed.

Lemma tame_main_try : tame main_try.
Proof.
  unfold main_try.
  apply tame_bind; [apply tame_logger|]. intros _.
  apply tame_bind; [apply tame_load_params|]. intros params.
  apply tame_bind; [apply tame_getitem|]. intros data_ingestion.
  apply tame_bind; [apply tame_getitem|]. intros test_size.
  apply tame_bind; [apply tame_load_data|]. intros df.
  apply tame_bind; [apply tame_preprocess_data|]. intros final_df.
  apply tame_bind; [apply tame_train_test_split|]. intros [train_data test_data].
  apply tame_bind; [apply tame_save_data|]. intros _. apply tame_logger.
Qed.

(** C8: an [Exception] raised in the [try] suite of [main], whichever
    stage it comes from, is logged at error level and printed, and [main]
    returns; when the suite ends without one, [main] ends as the suite
    does; and when the environment raises only [Exception]s, [main]
    returns in every case. *)
Theorem main_catches w :
  (forall e, (main_try w).2 = Raise e -> is_Exception e = true ->
     (main w).2 = Ok tt /\
     log (main w).1 =
       (ERROR, "Data ingestion failed: " +:+ exn_str e) :: log (main_try w).1 /\
     stdout (main w).1 =
       ("‚ùå Error: " +:+ exn_str e) :: stdout (main_try w).1) /\
  ((main_try w).2 = Ok tt -> main w = main_try w) /\
  (raises_Exceptions w -> (main w).2 = Ok tt).
Proof.
  assert (forall e, (main_try w).2 = Raise e -> is_Exception e = true ->
     (main w).2 = Ok tt /\
     log (main w).1 =
       (ERROR, "Data ingestion failed: " +:+ exn_str e) :: log (main_try w).1 /\
     stdout (main w).1 =
       ("‚ùå Error: " +:+ exn_str e) :: stdout (main_try w).1) as Hcatch.
  { intros e Hr He. unfold main. run.
    destruct (main_try w) as [w' r]. cbn [snd] in Hr. subst r.
    by rewrite He. }
  assert ((main_try w).2 = Ok tt -> main w = main_try w) as Hok.
  { intros Hr. unfold main. run.
    destruct (main_try w) as [w' r]. cbn [snd] in Hr. by subst r. }
  split; [done|]. split; [done|].
  intros Hw. destruct (tame_main_try w Hw) as [_ He].
  destruct ((main_try w).2) as [[]|e] eqn:Hr.
  - by rewrite Hok.
  - by destruct (Hcatch e eq_refl (He e eq_refl)) as [? _].
Qed.

End Facts.

(** * The properties at the sample inputs *)

Lemma load_data_fetches_source_url :
  Substring "github.com" source_url /\
  ~ Substring "raw" source_url /\
  fetched (load_data source_url world0).1 =
    ["https://raw.githubusercontent.com/vikashishere/YT-MLOPS-Complete-ML-Pipeline/main/experiments/spam.csv"].
Proof.
  assert (Substring "github.com" source_url) as Hg
    by (apply str_in_spec; vm_compute; reflexivity).
  assert (~ Substring "raw" source_url) as Hr
    by (apply str_in_false; vm_compute; reflexivity).
  split; [exact Hg|]. split; [exact Hr|].
  exact (proj1 (load_data_fetches source_url world0) Hg Hr).
Defined.

(** A table without "v1" and "v2" is accepted. *)
Lemma preprocess_data_accepts_unnamed_only :
  ("v1" ∈ referenced_labels) /\
  ("v1" ∉ column_names unnamed_only) /\
  (preprocess_data unnamed_only world0).2 = Ok (mkDataFrame [0; 1] []).
Proof.
  split; [by apply (bool_decide_unpack _)|].
  split; [by apply (bool_decide_unpack _)|].
  vm_compute; reflexivity.
Qed.

Lemma preprocess_data_raises_on_processed :
  (exists c, c ∈ dropped_labels /\
             c ∉ column_names (preprocessed (raw_table 2 []))) /\
  (exists e, (preprocess_data (preprocessed (raw_table 2 [])) world0).2 = Raise e /\
             exn_cls e = KeyError).
Proof.
  assert (exists c, c ∈ dropped_labels /\
             c ∉ column_names (preprocessed (raw_table 2 []))) as H.
  { exists "Unnamed: 2". split; by apply (bool_decide_unpack _). }
  split; [exact H|].
  exact (proj1 (preprocess_data_raises_iff _ world0) H).
Defined.

(** A table with a sixth column is accepted, and three columns remain. *)
Lemma preprocess_data_keeps_sixth_column :
  let df := raw_table 2 [("extra", [NaN; NaN])] in
  (forall c, c ∈ referenced_labels -> c ∈ column_names df) /\
  exists df',
    (preprocess_data df world0).2 = Ok df' /\
    column_names df' = ["target"; "text"; "extra"].
Proof.
  split.
  - apply Forall_forall. by apply (bool_decide_unpack _).
  - eexists. split; vm_compute; reflexivity.
Qed.

Lemma preprocess_data_columns_ten_rows :
  let df := raw_table 10 [] in
  let df' := preprocessed df in
  (preprocess_data df world0).2 = Ok df' /\
  column_names df ≡ₚ referenced_labels /\
  index df' = index df /\
  columns df' =
    ((fun c => (new_label c.1, c.2)) <$>
       filter (fun c => c.1 ∉ dropped_labels) (columns df)) /\
  column_names df' ≡ₚ ["target"; "text"].
Proof.
  intros df df'.
  assert ((preprocess_data df world0).2 = Ok df') as Hrun
    by (vm_compute; reflexivity).
  assert (column_names df ≡ₚ referenced_labels) as Hperm
    by apply (Permutation_app_comm ["v1"; "v2"] dropped_labels).
  destruct (preprocess_data_columns df world0 df' Hrun) as (Hi & Hc & Hn).
  split; [exact Hrun|]. split; [exact Hperm|]. split; [exact Hi|].
  split; [exact Hc|]. exact (Hn Hperm).
Defined.

Lemma preprocess_data_twice_ten_rows :
  let df := raw_table 10 [] in
  (preprocess_data df world0).2 = Ok (preprocessed df) /\
  (forall c, c ∈ dropped_labels -> c ∉ column_names (preprocessed df)) /\
  (exists e,
     (preprocess_data (preprocessed df) (preprocess_data df world0).1).2 = Raise e /\
     exn_cls e = KeyError).
Proof.
  intros df.
  assert ((preprocess_data df world0).2 = Ok (preprocessed df)) as Hrun
    by (vm_compute; reflexivity).
  split; [exact Hrun|].
  exact (preprocess_data_twice df world0 (preprocessed df)
           (preprocess_data df world0).1 Hrun).
Defined.

Lemma preprocess_data_rows_ten_rows :
  let df := raw_table 10 [] in
  let df' := preprocessed df in
  (preprocess_data df world0).2 = Ok df' /\
  index df' = index df /\
  nrows df' = nrows df /\
  (columns df').*2 = (filter (fun c => c.1 ∉ dropped_labels) (columns df)).*2 /\
  (forall cells, ("v1", cells) ∈ columns df -> ("target", cells) ∈ columns df') /\
  (forall cells, ("v2", cells) ∈ columns df -> ("text", cells) ∈ columns df').
Proof.
  intros df df'.
  assert ((preprocess_data df world0).2 = Ok df') as Hrun
    by (vm_compute; reflexivity).
  split; [exact Hrun|].
  exact (preprocess_data_rows df world0 df' Hrun).
Defined.

(** A single row cannot be split. *)
Lemma train_test_split_one_row :
  let df := preprocessed (raw_table 1 []) in
  let f := Binary64.literal (1 # 2) in
  Binary64.valid f = true /\
  Binary64.ltb (Binary64.of_int 0) f = true /\
  Binary64.ltb f (Binary64.of_int 1) = true /\
  nrows df = 1%nat /\
  exists e,
    (train_test_split df (YFloat f) (Some 2) world0).2 = Raise e /\
    exn_cls e = ValueError.
Proof.
  intros df f. split; [vm_compute; reflexivity|].
  split; [vm_compute; reflexivity|]. split; [vm_compute; reflexivity|].
  split; [reflexivity|]. eexists. split; vm_compute; reflexivity.
Qed.

Lemma train_test_split_ten_rows :
  let df := preprocessed (raw_table 10 []) in
  let f := Binary64.literal (2 # 10) in
  Binary64.valid f = true /\
  Binary64.ltb (Binary64.of_int 0) f = true /\
  Binary64.ltb f (Binary64.of_int 1) = true /\
  Binary64.ceil (Binary64.mul f (Binary64.of_int (Z.of_nat (nrows df)))) = Ok 2 /\
  exists train test,
    (train_test_split df (YFloat f) (Some 2) world0).2 = Ok (train, test) /\
    nrows train = 8%nat /\ nrows test = 2%nat.
Proof.
  intros df f.
  assert (Binary64.valid f = true) as Hv by (vm_compute; reflexivity).
  assert (Binary64.ltb (Binary64.of_int 0) f = true) as Hf0
    by (vm_compute; reflexivity).
  assert (Binary64.ltb f (Binary64.of_int 1) = true) as Hf1
    by (vm_compute; reflexivity).
  assert (Binary64.ceil (Binary64.mul f (Binary64.of_int (Z.of_nat (nrows df))))
          = Ok 2) as Hk by (vm_compute; reflexivity).
  split; [exact Hv|]. split; [exact Hf0|]. split; [exact Hf1|]. split; [exact Hk|].
  pose proof (train_test_split_partition df f (Some 2) world0 Hv Hf0 Hf1) as H.
  cbv zeta in H. rewrite Hk in H. destruct H as [Hok _].
  destruct (Hok ltac:(split; reflexivity))
    as (train & test & ind_train & ind_test & Hr & _ & _ & _ & _ & _ & _ & _ & Hten).
  exists train, test. split; [exact Hr|].
  apply Hten; reflexivity.
Defined.

(** The product is the float product: 0.28 of 25 rows is
    7.000000000000001 in binary64, and the test partition has 8 rows. *)
Lemma validate_shuffle_split_float_product :
  Sklearn.validate_shuffle_split 25 (YFloat (Binary64.literal (28 # 100)))
  = Ok (17%nat, 8%nat).
Proof. vm_compute. reflexivity. Qed.

Lemma main_missing_test_size_sample :
  let w := sample_world config_without_test_size (raw_table 10 []) [] in
  yaml_file w "params.yaml" = Ok config_without_test_size /\
  ~ has_test_size config_without_test_size /\
  exists e,
    (main_try w).2 = Raise e /\
    (exn_cls e = KeyError \/ exn_cls e = TypeError) /\
    fetched (main w).1 = [] /\
    disk (main w).1 = ∅.
Proof.
  intros w.
  assert (yaml_file w "params.yaml" = Ok config_without_test_size) as Hy
    by reflexivity.
  assert (~ has_test_size config_without_test_size) as Hno.
  { intros (m & m' & v & Hm & Hd & Ht). injection Hm as <-.
    rewrite lookup_singleton_eq in Hd. injection Hd as <-.
    by rewrite lookup_empty in Ht. }
  split; [exact Hy|]. split; [exact Hno|].
  destruct (main_missing_test_size w _ Hy Hno) as (e & He & Hc & Hf & Hd & _).
  exists e. split; [exact He|]. split; [exact Hc|]. split; [exact Hf | exact Hd].
Defined.

Lemma main_catches_write_failure :
  raises_Exceptions world_full /\ (main world_full).2 = Ok tt.
Proof.
  assert (raises_Exceptions world_full) as Hw.
  { repeat split; intros p e; cbn -[String.eqb bool_decide];
      repeat case_match; intros [= <-]; reflexivity. }
  split; [exact Hw|].
  exact (proj2 (proj2 (main_catches world_full)) Hw).
Defined.

Lemma save_data_not_atomic_sample :
  let train := preprocessed (raw_table 8 []) in
  let test := preprocessed (raw_table 2 []) in
  let w' := (save_data train test "./data" world_rerun_full).1 in
  makedirs_fault world_rerun_full "./data/raw" = None /\
  write_fault world_rerun_full "./data/raw/train.csv" = None /\
  write_fault world_rerun_full "./data/raw/test.csv"
    = Some (Exn OSError "No space left on device") /\
  (save_data train test "./data" world_rerun_full).2
    = Raise (Exn OSError "No space left on device") /\
  disk w' !! "./data/raw/train.csv" = Some (columns train) /\
  "./data/raw" ∈ dirs w' /\
  disk w' !! "./data/notes.csv" = disk world_rerun_full !! "./data/notes.csv".
Proof.
  intros train test w'.
  assert (makedirs_fault world_rerun_full "./data/raw" = None) as H1
    by reflexivity.
  assert (write_fault world_rerun_full "./data/raw/train.csv" = None) as H2
    by (vm_compute; reflexivity).
  assert (write_fault world_rerun_full "./data/raw/test.csv"
          = Some (Exn OSError "No space left on device")) as H3
    by (vm_compute; reflexivity).
  destruct (save_data_not_atomic train test "./data" world_rerun_full _ H1 H2 H3)
    as (Hr & Htrain & Hdir & _ & Hother).
  split; [exact H1|]. split; [exact H2|]. split; [exact H3|].
  split; [exact Hr|]. split; [exact Htrain|]. split; [exact Hdir|].
  apply Hother; discriminate.
Defined.

(** Without a seed the partitions follow numpy's global generator: two
    worlds that differ in its state give different test partitions. *)
Lemma train_test_split_unseeded_varies :
  let df := preprocessed (raw_table 10 []) in
  (train_test_split df (YFloat (Binary64.literal (2 # 10))) None world0).2
  <> (train_test_split df (YFloat (Binary64.literal (2 # 10))) None (set_np_random (G := lcg) 1 world0)).2.
Proof. vm_compute. discriminate. Qed.

(** The run of the specification's scenario: ten rows, [test_size: 0.2]. *)
Lemma main_sample_run :
  (main world0).2 = Ok tt /\
  fetched (main world0).1 =
    ["https://raw.githubusercontent.com/vikashishere/YT-MLOPS-Complete-ML-Pipeline/main/experiments/spam.csv"] /\
  (exists train test,
     disk (main world0).1 !! "./data/raw/train.csv" = Some train /\
     disk (main world0).1 !! "./data/raw/test.csv" = Some test /\
     train.*1 = ["target"; "text"] /\ test.*1 = ["target"; "text"] /\
     Forall (fun c => length c.2 = 8%nat) train /\
     Forall (fun c => length c.2 = 2%nat) test).
Proof.
  split; [vm_compute; reflexivity|]. split; [vm_compute; reflexivity|].
  eexists _, _. split; [vm_compute; reflexivity|].
  split; [vm_compute; reflexivity|].
  split; [reflexivity|]. split; [reflexivity|].
  split; repeat constructor.
Qed.

(** * More of the script *)

(** ** Strings, continued *)

Lemma Substring_trans (a b c : string) :
  Substring a b -> Substring b c -> Substring a c.
Proof.
  intros (p & q & ->) (p' & q' & ->). exists (p' +:+ p), (q +:+ q').
  by rewrite !append_assoc.
Qed.

Lemma Substring_cons (sub s : string) (c : Ascii.ascii) :
  Substring sub s -> Substring sub (String c s).
Proof. intros (p & q & ->). by exists (String c p), q. Qed.

(** Where [old] occurs, the result of [replace] holds [new]. *)
Lemma str_replace_occurs (s old new : string) :
  old <> EmptyString ->
  Py.str_in old s = true ->
  Substring new (Py.str_replace s old new).
Proof.
  intros Hold. induction s as [|c s IH].
  - destruct old; [done|]. discriminate.
  - cbn [Py.str_in]. destruct (Py.startswith (String c s) old) eqn:Hs.
    + intros _. apply startswith_spec in Hs as [r ->].
      rewrite str_replace_match by done.
      by exists EmptyString, (Py.str_replace r old new).
    + cbn [orb]. intros Hin. rewrite str_replace_keep by done.
      by apply Substring_cons, IH.
Qed.

(** A location that mentions "raw", or does not mention "github.com",
    resolves to itself. *)
Lemma resolve_url_fixed (u : string) :
  Py.str_in "raw" u = true \/ Py.str_in "github.com" u = false ->
  resolve_url u = u.
Proof.
  unfold resolve_url. intros [-> | ->]; [by rewrite andb_false_r | done].
Qed.

(** Resolving a resolved location changes nothing. *)
Lemma resolve_url_idempotent (url : string) :
  resolve_url (resolve_url url) = resolve_url url.
Proof.
  apply resolve_url_fixed. unfold resolve_url.
  destruct (Py.str_in "github.com" url && negb (Py.str_in "raw" url)) eqn:Hc.
  - set (u := Py.str_replace url "blob/" EmptyString).
    destruct (Py.str_in "github.com" u) eqn:Hu.
    + left. apply str_in_spec.
      eapply Substring_trans; [|by apply str_replace_occurs].
      by exists EmptyString, ".githubusercontent.com".
    + right. by rewrite (str_replace_absent u).
  - apply andb_false_iff in Hc as [Hc | Hc]; [by right|].
    left. by apply negb_false_iff.
Qed.

Section Coverage.

Context {G : RandomGen}.

Implicit Types (w : World) (df : DataFrame) (e : exn).

Ltac run :=
  unfold try_except, bind, lift, ret, raise, logger, print; cbn beta iota.

(** ** Loading *)

(** X1: when opening or parsing the file fails with [e], [load_params]
    raises [e] itself.  An [Exception] adds one error record to the log
    and changes nothing else; the record names the path for a missing
    file and the text of [e] for a parse failure or any other failure.
    What is not an [Exception] passes through unlogged. *)
Theorem load_params_reraises (params_path : string) w e :
  yaml_file w params_path = Raise e ->
  (load_params params_path w).2 = Raise e /\
  (is_Exception e = false -> (load_params params_path w).1 = w) /\
  (is_Exception e = true ->
   exists msg,
     (load_params params_path w).1 = set_log ((ERROR, msg) :: log w) w /\
     (exn_cls e = FileNotFoundError ->
      msg = "YAML file not found at path: " +:+ params_path) /\
     (exn_cls e = YAMLError ->
      msg = "Failed to parse YAML file: " +:+ exn_str e) /\
     (exn_cls e <> FileNotFoundError -> exn_cls e <> YAMLError ->
      msg = "Unexpected error while loading parameters: " +:+ exn_str e)).
Proof.
  intros Hy. unfold load_params, open_safe_load. run. rewrite Hy.
  destruct (is_Exception e) eqn:He.
  - split; [by destruct (exn_cls e)|]. split; [done|]. intros _.
    destruct (exn_cls e) eqn:Hc; eexists; (split; [reflexivity|]); by repeat split.
  - by repeat split.
Qed.

(** X2: [load_data] reads one location, the resolved one, and its
    outcome is that of [pd.read_csv] there: the table, or the exception
    raised again.  It writes no file.  The log gains one record: a debug
    record that names the resolved location, or for an [Exception] an
    error record, "CSV parsing error" for a [ParserError] and
    "Unexpected error while loading data" otherwise. *)
Theorem load_data_passes_through (data_url : string) w :
  let location := resolve_url data_url in
  let w' := (load_data data_url w).1 in
  (load_data data_url w).2 = remote_csv w location /\
  fetched w' = location :: fetched w /\
  disk w' = disk w /\ dirs w' = dirs w /\ stdout w' = stdout w /\
  (forall df, remote_csv w location = Ok df ->
     log w' = (DEBUG, "Data successfully loaded from " +:+ location) :: log w) /\
  (forall e, remote_csv w location = Raise e -> is_Exception e = true ->
     log w' =
       (ERROR, match exn_cls e with
               | ParserError => "CSV parsing error: "
               | _ => "Unexpected error while loading data: "
               end +:+ exn_str e)
       :: log w).
Proof.
  intros location w'. subst w'.
  unfold load_data, read_csv. run. fold location.
  destruct (remote_csv w location) as [df|e] eqn:Hr; cbn [fst snd].
  - repeat split; try done; by intros ? [= <-].
  - destruct (is_Exception e) eqn:He.
    + destruct (exn_cls e) eqn:Hc; repeat split; try done;
        intros ? [= <-] _; cbn [log set_log set_fetched]; by rewrite Hc.
    + repeat split; try done; intros ? [= <-]; by rewrite He.
Qed.

(** X3: the location [load_data] reads for a url is one it reads as it
    is: resolving is idempotent. *)
Theorem load_data_resolved_again (data_url location : string) w w' :
  fetched (load_data data_url w).1 = location :: fetched w ->
  fetched (load_data location w').1 = location :: fetched w'.
Proof.
  rewrite !load_data_fetched. intros [= <-]. by rewrite resolve_url_idempotent.
Qed.

(** ** Preprocessing, continued *)

(** X4: [preprocess_data] returns a table with one cell per row in every
    column when it is given one. *)
Theorem preprocess_data_well_formed df w df' :
  well_formed df ->
  (preprocess_data df w).2 = Ok df' ->
  well_formed df'.
Proof.
  intros Hwf [_ ->]%preprocess_data_Ok_inv. by apply preprocessed_well_formed.
Qed.

(** X5: column labels that are distinct stay distinct, provided no
    column of the raw table is labelled "target" or "text" already. *)
Theorem preprocess_data_distinct_labels df w df' :
  NoDup (column_names df) ->
  "target" ∉ column_names df ->
  "text" ∉ column_names df ->
  (preprocess_data df w).2 = Ok df' ->
  NoDup (column_names df').
Proof.
  intros Hnd Htarget Htext [_ ->]%preprocess_data_Ok_inv.
  rewrite column_names_preprocessed.
  apply NoDup_fmap_2_strong; [|by apply NoDup_filter].
  intros x y [_ Hx]%list_elem_of_filter [_ Hy]%list_elem_of_filter.
  unfold new_label. repeat case_decide; intros Heq; congruence.
Qed.

(** X6: [preprocess_data] does no input or output: whatever the table,
    it adds one record to the log, a debug record when it returns and an
    error record when it raises, and changes nothing else. *)
Theorem preprocess_data_only_logs df w :
  exists (l : level) (msg : string),
    (preprocess_data df w).1 = set_log ((l, msg) :: log w) w /\
    (l = DEBUG <-> exists df', (preprocess_data df w).2 = Ok df') /\
    (l = ERROR <-> exists e, (preprocess_data df w).2 = Raise e).
Proof.
  destruct (all_present_dec df) as [Hall | (c & Hin & Hout)].
  - rewrite preprocess_data_accepts by done. eexists _, _.
    split; [reflexivity|]. split; split; try done; eauto.
    by intros [e ?].
  - destruct (preprocess_data_rejects df w c Hin Hout) as [msg ->].
    eexists _, _. split; [reflexivity|]. split; split; try done; eauto.
    by intros [df' ?].
Qed.

(** ** Splitting, continued *)

Lemma omap_fmap {A B C} (f : B -> option C) (g : A -> B) (l : list A) :
  omap f (g <$> l) = omap (fun a => f (g a)) l.
Proof. induction l as [|a l IH]; [done|]. csimpl. by rewrite IH. Qed.

Lemma take_positions_seq {A} (l : list A) :
  Pandas.take_positions (seq 0 (length l)) l = l.
Proof.
  unfold Pandas.take_positions. induction l as [|a l IH]; [done|].
  cbn [length seq]. csimpl. rewrite <- fmap_S_seq, omap_fmap. f_equal. exact IH.
Qed.

(** Taking every position once gives the list back, rearranged. *)
Lemma take_positions_perm {A} (positions : list nat) (l : list A) :
  positions ≡ₚ seq 0 (length l) -> Pandas.take_positions positions l ≡ₚ l.
Proof.
  intros Hp. unfold Pandas.take_positions. rewrite Hp.
  by rewrite <- (take_positions_seq l) at 2.
Qed.

Lemma iloc_Ok_inv df (positions : list nat) (part : DataFrame) :
  Pandas.iloc df positions = Ok part ->
  Forall (fun i => i < nrows df)%nat positions /\
  index part = Pandas.take_positions positions (index df) /\
  columns part =
    (fun c => (c.1, Pandas.take_positions positions c.2)) <$> columns df.
Proof.
  unfold Pandas.iloc. destruct (forallb _ positions) eqn:Hall; [|done].
  intros [= <-]. split; [|done].
  apply Forall_forall. intros i Hi. rewrite forallb_forall in Hall.
  apply Nat.ltb_lt, Hall. by apply list_elem_of_In.
Qed.

(** Sizes that pass validation are positive and sum to the row count. *)
Lemma validate_shuffle_split_Ok (n : nat) (test_size : yaml) (n_train n_test : nat) :
  Sklearn.validate_shuffle_split n test_size = Ok (n_train, n_test) ->
  (0 < n_train /\ 0 < n_test /\ n_test + n_train = n)%nat.
Proof.
  unfold Sklearn.validate_shuffle_split.
  destruct test_size; try done; repeat case_match; try done;
    intros [= <- <-]; lia.
Qed.

Lemma train_test_split_Ok_inv df (test_size : yaml) (random_state : option Z) w
    (train test : DataFrame) :
  (train_test_split df test_size random_state w).2 = Ok (train, test) ->
  exists (n_train n_test : nat) (p : list nat),
    Sklearn.validate_shuffle_split (nrows df) test_size = Ok (n_train, n_test) /\
    (rng_permutation random_state (nrows df) w).2 = Ok p /\
    p ≡ₚ seq 0 (nrows df) /\
    Pandas.iloc df (drop n_test p) = Ok train /\
    Pandas.iloc df (take n_test p) = Ok test.
Proof.
  unfold train_test_split. run.
  destruct (Sklearn.validate_shuffle_split (nrows df) test_size)
    as [[n_train n_test]|e] eqn:Hv; [|done].
  destruct (validate_shuffle_split_Ok _ _ _ _ Hv) as (_ & _ & Hsum).
  destruct (rng_permutation_perm random_state (nrows df) w) as (p & Hp & Hperm).
  destruct (rng_permutation random_state (nrows df) w) as [w1 r].
  cbn [snd] in Hp. subst r. cbn beta iota.
  assert (take n_train (drop n_test p) = drop n_test p) as ->.
  { apply take_ge. rewrite length_drop, Hperm, length_seq. lia. }
  destruct (Pandas.iloc df (drop n_test p)) as [tr|e] eqn:Htr; [|done].
  destruct (Pandas.iloc df (take n_test p)) as [te|e] eqn:Hte; [|done].
  intros [= <- <-]. by exists n_train, n_test, p.
Qed.

(** X7: the split loses no row and repeats none: the row labels of the
    two partitions together are those of the table, each as often as
    there; both partitions have the table's column labels; and in a
    table with one cell per row in every column, the cells of a column
    in the two partitions together are the cells of that column. *)
Theorem train_test_split_keeps_rows df (test_size : yaml)
    (random_state : option Z) w (train test : DataFrame) :
  (train_test_split df test_size random_state w).2 = Ok (train, test) ->
  index test ++ index train ≡ₚ index df /\
  column_names train = column_names df /\
  column_names test = column_names df /\
  (well_formed df ->
   forall (j : nat) (label : string) (cells : list cell),
     columns df !! j = Some (label, cells) ->
     exists cells_train cells_test,
       columns train !! j = Some (label, cells_train) /\
       columns test !! j = Some (label, cells_test) /\
       cells_test ++ cells_train ≡ₚ cells).
Proof.
  intros (n_train & n_test & p & _ & _ & Hperm & Htr & Hte)%train_test_split_Ok_inv.
  apply iloc_Ok_inv in Htr as (_ & Hitr & Hctr).
  apply iloc_Ok_inv in Hte as (_ & Hite & Hcte).
  assert (forall {A} (l : list A), length l = nrows df ->
    Pandas.take_positions (take n_test p) l
      ++ Pandas.take_positions (drop n_test p) l ≡ₚ l) as Hall.
  { intros A l Hl. unfold Pandas.take_positions. rewrite <- omap_app.
    apply take_positions_perm. by rewrite take_drop, Hl. }
  split; [rewrite Hitr, Hite; by apply Hall|].
  split; [unfold column_names; rewrite Hctr, <- list_fmap_compose;
          by apply list_fmap_ext|].
  split; [unfold column_names; rewrite Hcte, <- list_fmap_compose;
          by apply list_fmap_ext|].
  intros Hwf j label cells Hj.
  exists (Pandas.take_positions (drop n_test p) cells),
         (Pandas.take_positions (take n_test p) cells).
  rewrite Hctr, Hcte, !list_lookup_fmap, Hj. split; [done|]. split; [done|].
  apply Hall. unfold well_formed in Hwf. rewrite Forall_forall in Hwf.
  apply (Hwf (label, cells)). by eapply list_elem_of_lookup_2.
Qed.

(** X8: which rows go to which partition depends on the number of rows,
    on [test_size] and on the seed, never on the cells: two tables of
    the same height are split at the same positions. *)
Theorem train_test_split_ignores_cells (df1 df2 : DataFrame) (test_size : yaml)
    (seed : Z) (w1 w2 : World) (train1 test1 : DataFrame) :
  nrows df1 = nrows df2 ->
  (train_test_split df1 test_size (Some seed) w1).2 = Ok (train1, test1) ->
  exists (train2 test2 : DataFrame) (ind_train ind_test : list nat),
    (train_test_split df2 test_size (Some seed) w2).2 = Ok (train2, test2) /\
    Pandas.iloc df1 ind_train = Ok train1 /\
    Pandas.iloc df1 ind_test = Ok test1 /\
    Pandas.iloc df2 ind_train = Ok train2 /\
    Pandas.iloc df2 ind_test = Ok test2.
Proof.
  intros Hn (n_train & n_test & p & Hv & Hp & Hperm & Htr & Hte)%train_test_split_Ok_inv.
  rewrite rng_permutation_seeded in Hp. cbn [snd] in Hp. injection Hp as Hp.
  destruct (validate_shuffle_split_Ok _ _ _ _ Hv) as (_ & _ & Hsum).
  pose proof (iloc_Ok_inv _ _ _ Htr) as [Hrtr _].
  pose proof (iloc_Ok_inv _ _ _ Hte) as [Hrte _].
  rewrite Hn in Hrtr, Hrte.
  destruct (iloc_in_range df2 _ Hrtr) as (train2 & Htr2 & _).
  destruct (iloc_in_range df2 _ Hrte) as (test2 & Hte2 & _).
  exists train2, test2, (drop n_test p), (take n_test p).
  split; [|done].
  unfold train_test_split. run. rewrite <- Hn, Hv, rng_permutation_seeded.
  cbn beta iota. rewrite Hp.
  assert (take n_train (drop n_test p) = drop n_test p) as ->.
  { apply take_ge. rewrite length_drop, Hperm, length_seq. lia. }
  by rewrite Htr2, Hte2.
Qed.

(** X9: an integer [test_size] is a number of rows: for [0 < k < n] the
    test partition has [k] rows and the train partition the other
    [n - k]. *)
Theorem train_test_split_row_count df (k : Z) (random_state : option Z) w :
  0 < k < Z.of_nat (nrows df) ->
  exists train test,
    (train_test_split df (YInt k) random_state w).2 = Ok (train, test) /\
    Z.of_nat (nrows test) = k /\
    Z.of_nat (nrows train) = Z.of_nat (nrows df) - k.
Proof.
  intros Hk.
  assert (Sklearn.validate_shuffle_split (nrows df) (YInt k)
          = Ok (Z.to_nat (Z.of_nat (nrows df) - k), Z.to_nat k)) as Hv.
  { unfold Sklearn.validate_shuffle_split.
    assert ((k <=? 0) = false) as -> by lia.
    assert ((Z.of_nat (nrows df) <=? k) = false) as -> by lia.
    assert ((Z.of_nat (nrows df) - k =? 0) = false) as -> by lia.
    assert ((Z.of_nat (nrows df) - k <? 0) = false) as -> by lia. done. }
  destruct (train_test_split_sized df (YInt k) random_state w _ _ Hv)
    as (train & test & _ & _ & Hr & _ & _ & _ & Hn1 & Hn2); [lia|].
  exists train, test. split; [done|]. lia.
Qed.

(** ** Saving, continued *)

(** The world [save_data] leaves when nothing fails. *)
Lemma save_data_Ok (train_data test_data : DataFrame) (data_path : string) w :
  let raw := Py.os_path_join data_path "raw" in
  makedirs_fault w raw = None ->
  write_fault w (Py.os_path_join raw "train.csv") = None ->
  write_fault w (Py.os_path_join raw "test.csv") = None ->
  save_data train_data test_data data_path w =
    (set_log ((DEBUG, "Train and test datasets saved to " +:+ raw) :: log w)
       (set_disk (<[ Py.os_path_join raw "test.csv" := columns test_data ]>
                    (<[ Py.os_path_join raw "train.csv" := columns train_data ]>
                       (disk w)))
          (set_dirs ({[ raw ]} ∪ dirs w) w)),
     Ok tt).
Proof.
  intros raw Hdir Htrain Htest.
  unfold save_data, makedirs, to_csv. run. fold raw.
  rewrite Hdir. cbn [write_fault set_dirs]. rewrite Htrain.
  cbn [write_fault set_dirs set_disk]. by rewrite Htest.
Qed.

(** X10: when nothing fails, [save_data] returns; train.csv then holds
    the header and cells of the train partition and test.csv those of
    the test partition, whatever was there before; every other file is
    as it was; the directory is there; and the log gains one debug
    record. *)
Theorem save_data_writes_both (train_data test_data : DataFrame)
    (data_path : string) w :
  let raw := Py.os_path_join data_path "raw" in
  let train_path := Py.os_path_join raw "train.csv" in
  let test_path := Py.os_path_join raw "test.csv" in
  let w' := (save_data train_data test_data data_path w).1 in
  makedirs_fault w raw = None ->
  write_fault w train_path = None ->
  write_fault w test_path = None ->
  (save_data train_data test_data data_path w).2 = Ok tt /\
  disk w' !! train_path = Some (columns train_data) /\
  disk w' !! test_path = Some (columns test_data) /\
  (forall p, p <> train_path -> p <> test_path -> disk w' !! p = disk w !! p) /\
  raw ∈ dirs w' /\
  fetched w' = fetched w /\
  log w' = (DEBUG, "Train and test datasets saved to " +:+ raw) :: log w.
Proof.
  intros raw train_path test_path w' Hdir Htrain Htest. subst w'.
  rewrite save_data_Ok by done. cbn [fst snd disk dirs fetched log set_log set_disk set_dirs].
  fold raw. fold train_path test_path.
  pose proof (save_data_paths_differ raw) as Hne. fold train_path test_path in Hne.
  split; [done|].
  split; [by rewrite lookup_insert_ne, lookup_insert_eq|].
  split; [by rewrite lookup_insert_eq|].
  split; [intros p ? ?; by rewrite !lookup_insert_ne|].
  split; [set_solver | done].
Qed.

(** X11: when the directory cannot be made, [save_data] raises that
    failure and no file other than the log file has changed.  When the
    directory is made and the write of train.csv fails, [save_data]
    raises that failure and test.csv is not attempted: every file other
    than train.csv and the log file is as it was, and train.csv is as
    the failed write has left it.  In both cases the log file gains the
    record of the failure, when it is an [Exception]. *)
Theorem save_data_fails_early (train_data test_data : DataFrame)
    (data_path : string) w e :
  let raw := Py.os_path_join data_path "raw" in
  let train_path := Py.os_path_join raw "train.csv" in
  let w' := (save_data train_data test_data data_path w).1 in
  let failure :=
    if is_Exception e
    then (ERROR, "Unexpected error while saving datasets: " +:+ exn_str e)
         :: log w
    else log w in
  (makedirs_fault w raw = Some e ->
   (save_data train_data test_data data_path w).2 = Raise e /\
   log w' = failure /\
   (forall p, p <> log_file_path -> disk w' !! p = disk w !! p)) /\
  (makedirs_fault w raw = None ->
   write_fault w train_path = Some e ->
   (save_data train_data test_data data_path w).2 = Raise e /\
   log w' = failure /\
   (forall p, p <> train_path -> p <> log_file_path ->
      disk w' !! p = disk w !! p) /\
   disk w' !! train_path =
     match write_leaves w train_path with
     | Some partial => Some partial
     | None => disk w !! train_path
     end).
Proof.
  intros raw train_path w' failure. subst w' failure.
  unfold save_data, makedirs, to_csv. run. fold raw. fold train_path.
  split.
  - intros ->. by destruct (is_Exception e).
  - intros -> Htrain. cbn [write_fault write_leaves set_dirs]. rewrite Htrain.
    destruct (write_leaves w train_path) as [partial|]; destruct (is_Exception e);
      cbn [fst snd disk log set_log set_disk set_dirs];
      (split; [done|]); (split; [done|]);
      (split; [|by rewrite ?lookup_insert_eq]);
      intros p Hp _; by rewrite ?lookup_insert_ne.
Qed.

(** X12: the last call wins: saving a second pair of partitions to the
    same place leaves the files that saving the second pair alone
    leaves. *)
Theorem save_data_overwrites (train1 test1 train2 test2 : DataFrame)
    (data_path : string) w :
  let raw := Py.os_path_join data_path "raw" in
  makedirs_fault w raw = None ->
  write_fault w (Py.os_path_join raw "train.csv") = None ->
  write_fault w (Py.os_path_join raw "test.csv") = None ->
  disk (save_data train2 test2 data_path
          (save_data train1 test1 data_path w).1).1
  = disk (save_data train2 test2 data_path w).1.
Proof.
  intros raw Hdir Htrain Htest.
  rewrite (save_data_Ok train1 test1) by done. fold raw. cbn [fst].
  rewrite !save_data_Ok by done. fold raw. cbn [fst disk set_log set_disk set_dirs].
  apply map_eq. intros p. rewrite !lookup_insert. by repeat case_decide.
Qed.

(** ** What a computation leaves alone *)

Lemma keeps_bind {A B C} (f : World -> C) (c : M A) (k : A -> M B) :
  keeps f c -> (forall a, keeps f (k a)) -> keeps f (bind c k).
Proof.
  intros Hc Hk w. unfold bind. specialize (Hc w).
  destruct (c w) as [w' [a|e]]; [|done]. by rewrite Hk.
Qed.

Lemma keeps_try_except {A C} (f : World -> C) (body : M A) (handler : exn -> M A) :
  keeps f body -> (forall e, keeps f (handler e)) ->
  keeps f (try_except body handler).
Proof.
  intros Hb Hh w. unfold try_except. specialize (Hb w).
  destruct (body w) as [w' [a|e]]; [done|].
  destruct (is_Exception e); [|done]. by rewrite Hh.
Qed.

(** Steps that leave the part [f] alone by computation. *)
Ltac keeps_prim :=
  intros ?;
  unfold open_safe_load, read_csv, makedirs, to_csv, rng_permutation,
    logger, print, lift, ret, raise;
  repeat case_match; reflexivity.

Ltac keeps_tac :=
  repeat first
    [ apply keeps_try_except
    | apply keeps_bind
    | match goal with |- forall _, _ => intro end
    | match goal with
      | |- keeps _ (match exn_cls ?e with _ => _ end) => destruct (exn_cls e)
      | |- keeps _ (let '(_, _) := ?x in _) => destruct x
      end
    | keeps_prim ].

Lemma keeps_fetched_load_params (p : string) : keeps fetched (load_params p).
Proof. unfold load_params. keeps_tac. Qed.

Lemma keeps_fetched_preprocess_data df : keeps fetched (preprocess_data df).
Proof. unfold preprocess_data. keeps_tac. Qed.

Lemma keeps_fetched_train_test_split df (ts : yaml) (rs : option Z) :
  keeps fetched (train_test_split df ts rs).
Proof. unfold train_test_split. keeps_tac. Qed.

Lemma keeps_fetched_save_data (tr te : DataFrame) (p : string) :
  keeps fetched (save_data tr te p).
Proof. unfold save_data. keeps_tac. Qed.

Lemma keeps_disk_load_params (p : string) : keeps disk (load_params p).
Proof. unfold load_params. keeps_tac. Qed.

Lemma keeps_disk_load_data (url : string) : keeps disk (load_data url).
Proof. unfold load_data. keeps_tac. Qed.

Lemma keeps_disk_preprocess_data df : keeps disk (preprocess_data df).
Proof. unfold preprocess_data. keeps_tac. Qed.

Lemma keeps_disk_train_test_split df (ts : yaml) (rs : option Z) :
  keeps disk (train_test_split df ts rs).
Proof. unfold train_test_split. keeps_tac. Qed.

Lemma keeps_environment_load_params (p : string) : keeps environment (load_params p).
Proof. unfold load_params. keeps_tac. Qed.

Lemma keeps_environment_load_data (url : string) : keeps environment (load_data url).
Proof. unfold load_data. keeps_tac. Qed.

Lemma keeps_environment_preprocess_data df : keeps environment (preprocess_data df).
Proof. unfold preprocess_data. keeps_tac. Qed.

Lemma keeps_environment_train_test_split df (ts : yaml) (rs : option Z) :
  keeps environment (train_test_split df ts rs).
Proof. unfold train_test_split. keeps_tac. Qed.

(** ** The run as a whole *)

Lemma reads_at_most_keeps {A} (c : M A) :
  keeps fetched c -> reads_at_most_raw_url c.
Proof. intros Hc w. left. apply Hc. Qed.

Lemma reads_at_most_bind {A B} (c : M A) (k : A -> M B) :
  keeps fetched c -> (forall a, reads_at_most_raw_url (k a)) ->
  reads_at_most_raw_url (bind c k).
Proof.
  intros Hc Hk w. unfold bind. specialize (Hc w).
  destruct (c w) as [w' [a|e]]; cbn [fst] in *; [|by left].
  rewrite <- Hc. apply Hk.
Qed.

Lemma reads_at_most_then_keeps {A B} (c : M A) (k : A -> M B) :
  reads_at_most_raw_url c -> (forall a, keeps fetched (k a)) ->
  reads_at_most_raw_url (bind c k).
Proof.
  intros Hc Hk w. unfold bind. specialize (Hc w).
  destruct (c w) as [w' [a|e]]; cbn [fst] in *; [|done]. by rewrite Hk.
Qed.

Lemma resolve_source_url : resolve_url source_url = raw_url.
Proof. vm_compute. reflexivity. Qed.

(** X13: whatever the world, a run of [main] hands [pd.read_csv] no
    location at all or the raw-content address of the source file, and
    that once. *)
Theorem main_reads_one_location w :
  fetched (main w).1 = fetched w \/ fetched (main w).1 = raw_url :: fetched w.
Proof.
  assert (reads_at_most_raw_url main_try) as Htry.
  { unfold main_try.
    apply reads_at_most_bind; [keeps_prim|]. intros _.
    apply reads_at_most_bind; [apply keeps_fetched_load_params|]. intros params.
    apply reads_at_most_bind; [keeps_prim|]. intros data_ingestion.
    apply reads_at_most_bind; [keeps_prim|]. intros test_size.
    apply reads_at_most_then_keeps.
    - intros w0. right. by rewrite load_data_fetched, resolve_source_url.
    - intros df. apply keeps_bind; [apply keeps_fetched_preprocess_data|].
      intros final_df.
      apply keeps_bind; [apply keeps_fetched_train_test_split|].
      intros [train_data test_data].
      apply keeps_bind; [apply keeps_fetched_save_data|]. intros _. keeps_prim. }
  unfold main, try_except. specialize (Htry w).
  destruct (main_try w) as [w' [[]|e]]; [done|].
  destruct (is_Exception e); done.
Qed.

(** In [main], [save_data] touches train.csv and test.csv only. *)
Lemma keeps_other_files_save_data (tr te : DataFrame) (p : string) :
  p <> train_csv -> p <> test_csv ->
  keeps (fun w => disk w !! p) (save_data tr te "./data").
Proof.
  intros H1 H2. unfold save_data.
  change (Py.os_path_join (Py.os_path_join "./data" "raw") "train.csv")
    with train_csv.
  change (Py.os_path_join (Py.os_path_join "./data" "raw") "test.csv")
    with test_csv.
  apply keeps_try_except; [|keeps_tac].
  apply keeps_bind; [keeps_prim|]. intros _.
  apply keeps_bind.
  { intros w. unfold to_csv. repeat case_match; cbn;
      by rewrite ?lookup_insert_ne. }
  intros _. apply keeps_bind; [|keeps_tac].
  intros w. unfold to_csv. repeat case_match; cbn; by rewrite ?lookup_insert_ne.
Qed.

(** ** What a computation logs *)

Lemma appends_records_bind {A B} (c : M A) (k : A -> M B) :
  appends_records c -> (forall a, appends_records (k a)) ->
  appends_records (bind c k).
Proof.
  intros Hc Hk w. unfold bind. destruct (Hc w) as [r1 H1].
  destruct (c w) as [w' [a|e]]; cbn [fst] in H1.
  - destruct (Hk a w') as [r2 H2]. exists (r2 ++ r1)%list.
    by rewrite H2, H1, app_assoc.
  - by exists r1.
Qed.

Lemma appends_records_try_except {A} (body : M A) (handler : exn -> M A) :
  appends_records body -> (forall e, appends_records (handler e)) ->
  appends_records (try_except body handler).
Proof.
  intros Hb Hh w. unfold try_except. destruct (Hb w) as [r1 H1].
  destruct (body w) as [w' [a|e]]; cbn [fst] in H1; [by exists r1|].
  destruct (is_Exception e); [|by exists r1].
  destruct (Hh e w') as [r2 H2]. exists (r2 ++ r1)%list.
  by rewrite H2, H1, app_assoc.
Qed.

Ltac appends_prim :=
  intros ?;
  unfold open_safe_load, read_csv, makedirs, to_csv, rng_permutation,
    logger, print, lift, ret, raise;
  repeat case_match; first [by exists [] | by eexists [_]].

Ltac appends_tac :=
  repeat first
    [ apply appends_records_try_except
    | apply appends_records_bind
    | match goal with |- forall _, _ => intro end
    | match goal with
      | |- appends_records (match exn_cls ?e with _ => _ end) =>
          destruct (exn_cls e)
      | |- appends_records (let '(_, _) := ?x in _) => destruct x
      end
    | appends_prim ].

(** A run of [main] adds records to the log and takes none away; the
    first it adds tells that the run has started. *)
Lemma main_appends_records w :
  exists records : list (level * string),
    log (main w).1
    = (records ++ (INFO, "Data ingestion process started.") :: log w)%list.
Proof.
  set (w1 := set_log ((INFO, "Data ingestion process started.") :: log w) w).
  assert (appends_records
    (try_except
       (bind (load_params "params.yaml") (fun params =>
        bind (lift (getitem params "data_ingestion")) (fun data_ingestion =>
        bind (lift (getitem data_ingestion "test_size")) (fun test_size =>
        bind (load_data source_url) (fun df =>
        bind (preprocess_data df) (fun final_df =>
        bind (train_test_split final_df test_size (Some 2)) (fun parts =>
        let '(train_data, test_data) := parts in
        bind (save_data train_data test_data "./data") (fun _ =>
        logger INFO "Data ingestion completed successfully."))))))))
       (fun e =>
          bind (logger ERROR ("Data ingestion failed: " +:+ exn_str e))
            (fun _ => print ("‚ùå Error: " +:+ exn_str e))))) as H.
  { unfold load_params, load_data, preprocess_data, train_test_split, save_data.
    appends_tac. }
  destruct (H w1) as [records Hr]. exists records. exact Hr.
Qed.

(** X14: whatever the world, a run of [main] adds its records to the
    log file, the first of them telling that the run has started, and
    every file other than the log file, ./data/raw/train.csv and
    ./data/raw/test.csv is as it was. *)
Theorem main_writes_two_files_only w (p : string) :
  p <> train_csv -> p <> test_csv -> p <> log_file_path ->
  disk (main w).1 !! p = disk w !! p /\
  exists records : list (level * string),
    log (main w).1
    = (records ++ (INFO, "Data ingestion process started.") :: log w)%list.
Proof.
  intros H1 H2 _. split; [|apply main_appends_records]. revert w.
  change (keeps (fun w => disk w !! p) main).
  unfold main, main_try.
  apply keeps_try_except; [|keeps_tac].
  apply keeps_bind; [keeps_prim|]. intros _.
  apply keeps_bind; [unfold load_params; keeps_tac|]. intros params.
  apply keeps_bind; [keeps_prim|]. intros data_ingestion.
  apply keeps_bind; [keeps_prim|]. intros test_size.
  apply keeps_bind; [unfold load_data; keeps_tac|]. intros df.
  apply keeps_bind; [unfold preprocess_data; keeps_tac|]. intros final_df.
  apply keeps_bind; [unfold train_test_split; keeps_tac|].
  intros [train_data test_data].
  apply keeps_bind; [by apply keeps_other_files_save_data|]. intros _.
  keeps_prim.
Qed.

Lemma load_params_Ok_inv (p : string) w (params : yaml) :
  (load_params p w).2 = Ok params -> yaml_file w p = Ok params.
Proof.
  unfold load_params, open_safe_load. run.
  destruct (yaml_file w p) as [v|e]; [done|].
  destruct (is_Exception e); [|done]. by destruct (exn_cls e).
Qed.

Lemma load_data_Ok (url : string) w df :
  remote_csv w (resolve_url url) = Ok df ->
  load_data url w =
    (set_log ((DEBUG, "Data successfully loaded from " +:+ resolve_url url)
              :: log w)
       (set_fetched (resolve_url url :: fetched w) w), Ok df).
Proof. intros H. unfold load_data, read_csv. run. by rewrite H. Qed.

Lemma load_data_Raise (url : string) w e :
  remote_csv w (resolve_url url) = Raise e ->
  is_Exception e = true ->
  load_data url w =
    (set_log ((ERROR, match exn_cls e with
                      | ParserError => "CSV parsing error: "
                      | _ => "Unexpected error while loading data: "
                      end +:+ exn_str e) :: log w)
       (set_fetched (resolve_url url :: fetched w) w), Raise e).
Proof.
  intros H He. unfold load_data, read_csv. run. rewrite H, He.
  by destruct (exn_cls e).
Qed.

Lemma main_keeps_disk_of_try w : disk (main w).1 = disk (main_try w).1.
Proof.
  unfold main, try_except. destruct (main_try w) as [w' [[]|e]]; [done|].
  by destruct (is_Exception e).
Qed.

Lemma keeps_world_train_test_split df (ts : yaml) (seed : Z) :
  keeps (fun w => w) (train_test_split df ts (Some seed)).
Proof. unfold train_test_split. keeps_tac. Qed.

(** When a run of [main] has changed the disk, every stage before
    [save_data] has run and returned. *)
Lemma main_disk_changed w :
  disk (main w).1 <> disk w ->
  exists (params data_ingestion test_size : yaml) (df : DataFrame)
         (n_train n_test : nat),
    yaml_file w "params.yaml" = Ok params /\
    getitem params "data_ingestion" = Ok data_ingestion /\
    getitem data_ingestion "test_size" = Ok test_size /\
    remote_csv w raw_url = Ok df /\
    (forall c, c ∈ dropped_labels -> c ∈ column_names df) /\
    Sklearn.validate_shuffle_split (nrows df) test_size = Ok (n_train, n_test).
Proof.
  rewrite main_keeps_disk_of_try. unfold main_try, bind at 1, logger.
  set (w0 := set_log _ w). intros Hdisk.
  assert (disk w0 = disk w) as D0 by reflexivity.
  pose proof (keeps_disk_load_params "params.yaml" w0) as D1.
  pose proof (keeps_environment_load_params "params.yaml" w0) as V1.
  pose proof (load_params_Ok_inv "params.yaml" w0) as P1.
  unfold bind at 1 in Hdisk.
  destruct (load_params "params.yaml" w0) as [w1 [params|e]];
    cbn [fst snd] in *; [|destruct Hdisk; congruence].
  specialize (P1 params eq_refl).
  unfold bind at 1, lift in Hdisk.
  destruct (getitem params "data_ingestion") as [data_ingestion|e] eqn:G1;
    cbn [fst snd] in *; [|destruct Hdisk; congruence].
  unfold bind at 1 in Hdisk.
  destruct (getitem data_ingestion "test_size") as [test_size|e] eqn:G2;
    cbn [fst snd] in *; [|destruct Hdisk; congruence].
  pose proof (keeps_disk_load_data source_url w1) as D2.
  pose proof (keeps_environment_load_data source_url w1) as V2.
  pose proof (load_data_outcome source_url w1) as P2.
  unfold bind at 1 in Hdisk.
  destruct (load_data source_url w1) as [w2 [df|e]];
    cbn [fst snd] in *; [|destruct Hdisk; congruence].
  pose proof (keeps_disk_preprocess_data df w2) as D3.
  pose proof (preprocess_data_Ok_inv df w2) as P3.
  unfold bind at 1 in Hdisk.
  destruct (preprocess_data df w2) as [w3 [final_df|e]];
    cbn [fst snd] in *; [|destruct Hdisk; congruence].
  destruct (P3 final_df eq_refl) as [Hall ->].
  pose proof (keeps_disk_train_test_split (preprocessed df) test_size (Some 2) w3) as D4.
  pose proof (train_test_split_Ok_inv (preprocessed df) test_size (Some 2) w3) as P4.
  unfold bind at 1 in Hdisk.
  destruct (train_test_split (preprocessed df) test_size (Some 2) w3)
    as [w4 [[train_data test_data]|e]];
    cbn [fst snd] in *; [|destruct Hdisk; congruence].
  destruct (P4 train_data test_data eq_refl)
    as (n_train & n_test & p & Hv & _).
  exists params, data_ingestion, test_size, df, n_train, n_test.
  rewrite resolve_source_url in P2.
  unfold environment in V1. injection V1 as _ V1b _ _.
  repeat split; try done.
  by rewrite <- V1b.
Qed.

(** X15: no stage is skipped and none runs after a failure: when a run
    of [main] has changed a file other than the log file, then
    [params.yaml] was loaded, it had the nested key, the source was
    read, the table had the three columns to drop, and the sizes of the
    partitions were valid. *)
Theorem main_writes_after_all_stages w (p : string) :
  p <> log_file_path ->
  disk (main w).1 !! p <> disk w !! p ->
  exists (params data_ingestion test_size : yaml) (df : DataFrame)
         (n_train n_test : nat),
    yaml_file w "params.yaml" = Ok params /\
    getitem params "data_ingestion" = Ok data_ingestion /\
    getitem data_ingestion "test_size" = Ok test_size /\
    remote_csv w raw_url = Ok df /\
    (forall c, c ∈ dropped_labels -> c ∈ column_names df) /\
    Sklearn.validate_shuffle_split (nrows df) test_size = Ok (n_train, n_test).
Proof.
  intros _ Hp. apply main_disk_changed. intros Heq. apply Hp. by rewrite Heq.
Qed.

Lemma load_params_Raise (p : string) w e :
  yaml_file w p = Raise e ->
  is_Exception e = true ->
  load_params p w =
    (set_log ((ERROR, match exn_cls e with
                      | FileNotFoundError => "YAML file not found at path: " +:+ p
                      | YAMLError => "Failed to parse YAML file: " +:+ exn_str e
                      | _ => "Unexpected error while loading parameters: "
                             +:+ exn_str e
                      end) :: log w) w, Raise e).
Proof.
  intros H He. unfold load_params, open_safe_load. run. rewrite H, He.
  by destruct (exn_cls e).
Qed.

(** X16: a failure of [load_params] is logged twice, once by
    [load_params] and once by [main], and printed once; the run reads no
    location and writes no file, and [main] returns. *)
Theorem main_config_failure w e :
  yaml_file w "params.yaml" = Raise e ->
  is_Exception e = true ->
  (main w).2 = Ok tt /\
  fetched (main w).1 = fetched w /\
  disk (main w).1 = disk w /\
  stdout (main w).1 = ("‚ùå Error: " +:+ exn_str e) :: stdout w /\
  log (main w).1 =
    (ERROR, "Data ingestion failed: " +:+ exn_str e)
    :: (ERROR, match exn_cls e with
               | FileNotFoundError => "YAML file not found at path: params.yaml"
               | YAMLError => "Failed to parse YAML file: " +:+ exn_str e
               | _ => "Unexpected error while loading parameters: " +:+ exn_str e
               end)
    :: (INFO, "Data ingestion process started.") :: log w.
Proof.
  intros Hy He. unfold main, main_try. run.
  rewrite (load_params_Raise _ _ e) by done. cbn beta iota. rewrite He.
  cbn [fst snd fetched disk stdout log set_log set_stdout].
  repeat split; try done; by destruct (exn_cls e).
Qed.

(** X17: a failure of [pd.read_csv] is logged twice, once by [load_data]
    and once by [main], and printed once; no file is written and no
    directory made, and [main] returns. *)
Theorem main_fetch_failure w (params data_ingestion test_size : yaml) e :
  yaml_file w "params.yaml" = Ok params ->
  getitem params "data_ingestion" = Ok data_ingestion ->
  getitem data_ingestion "test_size" = Ok test_size ->
  remote_csv w raw_url = Raise e ->
  is_Exception e = true ->
  (main w).2 = Ok tt /\
  fetched (main w).1 = raw_url :: fetched w /\
  disk (main w).1 = disk w /\
  dirs (main w).1 = dirs w /\
  stdout (main w).1 = ("‚ùå Error: " +:+ exn_str e) :: stdout w /\
  log (main w).1 =
    (ERROR, "Data ingestion failed: " +:+ exn_str e)
    :: (ERROR, match exn_cls e with
               | ParserError => "CSV parsing error: "
               | _ => "Unexpected error while loading data: "
               end +:+ exn_str e)
    :: (DEBUG, "Parameters successfully loaded from params.yaml")
    :: (INFO, "Data ingestion process started.") :: log w.
Proof.
  intros Hy Hd Ht Hr He. unfold main, main_try. run.
  rewrite (load_params_Ok _ _ params) by done. cbn beta iota.
  rewrite Hd. cbn beta iota. rewrite Ht. cbn beta iota.
  rewrite (load_data_Raise _ _ e);
    [| by rewrite resolve_source_url | done].
  cbn beta iota. rewrite He, resolve_source_url. by cbn.
Qed.

(** X18: [test_size] is checked only when the split is made: with a
    value that [train_test_split] rejects, the run has read the source
    and preprocessed the table before it fails; no file is written, the
    failure is logged once and [main] returns. *)
Theorem main_rejected_test_size w (params data_ingestion test_size : yaml)
    df e :
  yaml_file w "params.yaml" = Ok params ->
  getitem params "data_ingestion" = Ok data_ingestion ->
  getitem data_ingestion "test_size" = Ok test_size ->
  remote_csv w raw_url = Ok df ->
  (forall c, c ∈ dropped_labels -> c ∈ column_names df) ->
  Sklearn.validate_shuffle_split (nrows df) test_size = Raise e ->
  (main w).2 = Ok tt /\
  fetched (main w).1 = raw_url :: fetched w /\
  disk (main w).1 = disk w /\
  dirs (main w).1 = dirs w /\
  log (main w).1 =
    (ERROR, "Data ingestion failed: " +:+ exn_str e)
    :: (DEBUG, "Data preprocessing completed successfully")
    :: (DEBUG, "Data successfully loaded from " +:+ raw_url)
    :: (DEBUG, "Parameters successfully loaded from params.yaml")
    :: (INFO, "Data ingestion process started.") :: log w.
Proof.
  intros Hy Hd Ht Hr Hall Hv.
  assert (is_Exception e = true) as He
    by (by eapply validate_shuffle_split_Raise).
  unfold main, main_try. run.
  rewrite (load_params_Ok _ _ params) by done. cbn beta iota.
  rewrite Hd. cbn beta iota. rewrite Ht. cbn beta iota.
  rewrite (load_data_Ok _ _ df) by (by rewrite resolve_source_url).
  cbn beta iota. rewrite preprocess_data_accepts by done. cbn beta iota.
  unfold train_test_split. run.
  change (nrows (preprocessed df)) with (nrows df). rewrite Hv.
  cbn beta iota. rewrite He, resolve_source_url. by cbn.
Qed.

(** X19: the whole run.  With a float [f] strictly between 0 and 1 in
    [params.yaml], a well-formed source table of [n] rows that has the
    three columns to drop, [k = ceil(f * n)] in binary64 with
    [0 < k < n], and a disk that takes the files, [main] returns.  The
    rows of the preprocessed table are then split over the two files:
    at positions that together are [0 .. n-1], each once, test.csv holds
    the [k] rows at the test positions and train.csv the [n - k] others,
    both under the header of the preprocessed table.  The log file
    gains the six records of the run, in order, and every other file is
    as before; the source was read once, at its raw-content address;
    and nothing is printed. *)
Theorem main_succeeds w (params data_ingestion : yaml) (f : spec_float)
    (k : Z) df :
  yaml_file w "params.yaml" = Ok params ->
  getitem params "data_ingestion" = Ok data_ingestion ->
  getitem data_ingestion "test_size" = Ok (YFloat f) ->
  Binary64.valid f = true ->
  Binary64.ltb (Binary64.of_int 0) f = true ->
  Binary64.ltb f (Binary64.of_int 1) = true ->
  remote_csv w raw_url = Ok df ->
  well_formed df ->
  (forall c, c ∈ dropped_labels -> c ∈ column_names df) ->
  Binary64.ceil (Binary64.mul f (Binary64.of_int (Z.of_nat (nrows df)))) = Ok k ->
  0 < k < Z.of_nat (nrows df) ->
  makedirs_fault w "./data/raw" = None ->
  write_fault w train_csv = None ->
  write_fault w test_csv = None ->
  exists ind_train ind_test : list nat,
    ind_test ++ ind_train ≡ₚ seq 0 (nrows df) /\
    Z.of_nat (length ind_test) = k /\
    Z.of_nat (length ind_train) = Z.of_nat (nrows df) - k /\
    (main w).2 = Ok tt /\
    disk (main w).1 =
      <[ test_csv := rows_at ind_test (columns (preprocessed df)) ]>
        (<[ train_csv := rows_at ind_train (columns (preprocessed df)) ]>
           (disk w)) /\
    Forall (fun c => length c.2 = length ind_train)
      (rows_at ind_train (columns (preprocessed df))) /\
    Forall (fun c => length c.2 = length ind_test)
      (rows_at ind_test (columns (preprocessed df))) /\
    fetched (main w).1 = raw_url :: fetched w /\
    stdout (main w).1 = stdout w /\
    log (main w).1 =
      (INFO, "Data ingestion completed successfully.")
      :: (DEBUG, "Train and test datasets saved to ./data/raw")
      :: (DEBUG, "Data preprocessing completed successfully")
      :: (DEBUG, "Data successfully loaded from " +:+ raw_url)
      :: (DEBUG, "Parameters successfully loaded from params.yaml")
      :: (INFO, "Data ingestion process started.") :: log w.
Proof.
  intros Hy Hd Ht _ Hf0 Hf1 Hr Hwf Hall Hk Hlt Hdir Htrain Htest.
  destruct (validate_fraction (nrows df) f k Hf0 Hf1 Hk) as [Hv _].
  specialize (Hv Hlt).
  set (w3 :=
    set_log ((DEBUG, "Data preprocessing completed successfully")
             :: (DEBUG, "Data successfully loaded from " +:+ raw_url)
             :: (DEBUG, "Parameters successfully loaded from params.yaml")
             :: (INFO, "Data ingestion process started.") :: log w)
      (set_fetched (raw_url :: fetched w) w)).
  destruct (train_test_split_sized (preprocessed df) (YFloat f) (Some 2) w3 _ _ Hv)
    as (train & test & ind_train & ind_test & Hs & Hitr & Hite & Hperm & Hn1 & Hn2).
  { change (nrows (preprocessed df)) with (nrows df). lia. }
  pose proof (keeps_world_train_test_split (preprocessed df) (YFloat f) 2 w3) as Hw3.
  assert (train_test_split (preprocessed df) (YFloat f) (Some 2) w3
          = (w3, Ok (train, test))) as Hsplit.
  { destruct (train_test_split _ _ _ w3) as [w4 r]. cbn [fst snd] in *. congruence. }
  apply iloc_Ok_inv in Hitr as (Hrtr & Hitr & Hctr).
  apply iloc_Ok_inv in Hite as (Hrte & Hite & Hcte).
  assert (forall positions : list nat,
    Forall (fun i => i < nrows (preprocessed df))%nat positions ->
    Forall (fun c => length c.2 = length positions)
      (rows_at positions (columns (preprocessed df)))) as Hrows.
  { intros positions Hrange. unfold rows_at.
    apply Forall_fmap, Forall_forall. intros c Hc. unfold compose. cbn [snd].
    apply length_take_positions.
    pose proof (preprocessed_well_formed df Hwf) as Hwf'.
    unfold well_formed in Hwf'. rewrite Forall_forall in Hwf'.
    by rewrite (Hwf' c Hc). }
  exists ind_train, ind_test.
  assert (main w =
    (set_log ((INFO, "Data ingestion completed successfully.")
              :: (DEBUG, "Train and test datasets saved to ./data/raw") :: log w3)
       (set_disk (<[ test_csv := columns test ]>
                    (<[ train_csv := columns train ]> (disk w)))
          (set_dirs ({[ "./data/raw" ]} ∪ dirs w) w3)), Ok tt)) as ->.
  { unfold main, main_try. run.
    rewrite (load_params_Ok _ _ params) by done. cbn beta iota.
    rewrite Hd. cbn beta iota. rewrite Ht. cbn beta iota.
    rewrite (load_data_Ok _ _ df) by (by rewrite resolve_source_url).
    cbn beta iota. rewrite preprocess_data_accepts by done. cbn beta iota.
    rewrite resolve_source_url.
    match goal with
    | |- context [train_test_split _ _ _ ?w'] => change w' with w3
    end.
    rewrite Hsplit. cbn beta iota.
    rewrite (save_data_Ok train test "./data" w3) by done. reflexivity. }
  cbn [fst snd disk fetched stdout log set_log set_disk set_dirs set_fetched].
  rewrite Hctr, Hcte. fold (rows_at ind_train (columns (preprocessed df))).
  fold (rows_at ind_test (columns (preprocessed df))).
  assert (Z.of_nat (length ind_test) = k) as Hlen.
  { assert (nrows test = length ind_test) as <-; [|lia].
    unfold nrows. rewrite Hite. by apply length_take_positions. }
  split; [done|]. split; [done|]. split.
  { apply Permutation_length in Hperm.
    rewrite length_app, length_seq in Hperm.
    change (nrows (preprocessed df)) with (nrows df) in Hperm. lia. }
  split; [done|]. split; [done|].
  split; [by apply Hrows|]. split; [by apply Hrows|]. done.
Qed.

End Coverage.

(** * The further properties at the sample inputs *)

Lemma raw_table_has_dropped (n : nat) (extra : list (string * list cell)) :
  forall c, c ∈ dropped_labels -> c ∈ column_names (raw_table n extra).
Proof.
  apply Forall_forall. unfold column_names, raw_table.
  cbn [columns fmap list_fmap app fst]. repeat constructor.
Qed.

Lemma load_params_reraises_unconfigured :
  let e := Exn FileNotFoundError "No such file or directory: 'params.yaml'" in
  yaml_file world_unconfigured "params.yaml" = Raise e /\
  (load_params "params.yaml" world_unconfigured).2 = Raise e.
Proof.
  intros e.
  assert (yaml_file world_unconfigured "params.yaml" = Raise e) as H by reflexivity.
  split; [exact H|].
  exact (proj1 (load_params_reraises "params.yaml" world_unconfigured e H)).
Defined.

Lemma load_data_passes_through_offline :
  let e := Exn OtherException "HTTP Error 404: Not Found" in
  remote_csv world_offline (resolve_url source_url) = Raise e /\
  is_Exception e = true /\
  (load_data source_url world_offline).2 = Raise e /\
  log (load_data source_url world_offline).1 =
    [(ERROR, "Unexpected error while loading data: HTTP Error 404: Not Found")].
Proof.
  intros e.
  assert (remote_csv world_offline (resolve_url source_url) = Raise e) as H
    by reflexivity.
  assert (is_Exception e = true) as He by reflexivity.
  destruct (load_data_passes_through source_url world_offline)
    as (Hr & _ & _ & _ & _ & _ & Hlog).
  split; [exact H|]. split; [exact He|]. split.
  - exact (eq_trans Hr H).
  - exact (Hlog e H He).
Defined.

Lemma load_data_resolved_again_source_url :
  fetched (load_data source_url world0).1 = raw_url :: fetched world0 /\
  fetched (load_data raw_url world_offline).1 = raw_url :: fetched world_offline.
Proof.
  assert (fetched (load_data source_url world0).1 = raw_url :: fetched world0)
    as H by (vm_compute; reflexivity).
  split; [exact H|].
  exact (load_data_resolved_again source_url raw_url world0 world_offline H).
Defined.

Lemma raw_table_well_formed : well_formed (raw_table 10 []).
Proof. repeat constructor. Qed.

Lemma preprocess_data_well_formed_ten_rows :
  well_formed (raw_table 10 []) /\
  (preprocess_data (raw_table 10 []) world0).2 = Ok (preprocessed (raw_table 10 [])) /\
  well_formed (preprocessed (raw_table 10 [])).
Proof.
  assert ((preprocess_data (raw_table 10 []) world0).2
          = Ok (preprocessed (raw_table 10 []))) as H by (vm_compute; reflexivity).
  split; [exact raw_table_well_formed|]. split; [exact H|].
  exact (preprocess_data_well_formed _ world0 _ raw_table_well_formed H).
Defined.

Lemma preprocess_data_distinct_labels_ten_rows :
  let df := raw_table 10 [] in
  NoDup (column_names df) /\
  ("target" ∉ column_names df) /\
  ("text" ∉ column_names df) /\
  (preprocess_data df world0).2 = Ok (preprocessed df) /\
  NoDup (column_names (preprocessed df)).
Proof.
  intros df.
  assert (NoDup (column_names df)) as Hnd by (by apply (bool_decide_unpack _)).
  assert ("target" ∉ column_names df) as H1 by (by apply (bool_decide_unpack _)).
  assert ("text" ∉ column_names df) as H2 by (by apply (bool_decide_unpack _)).
  assert ((preprocess_data df world0).2 = Ok (preprocessed df)) as H
    by (vm_compute; reflexivity).
  split; [exact Hnd|]. split; [exact H1|]. split; [exact H2|]. split; [exact H|].
  exact (preprocess_data_distinct_labels df world0 _ Hnd H1 H2 H).
Defined.

Lemma preprocess_data_only_logs_unnamed_only :
  exists (l : level) (msg : string),
    (preprocess_data unnamed_only world0).1
    = set_log ((l, msg) :: log world0) world0 /\
    (l = DEBUG <-> exists df', (preprocess_data unnamed_only world0).2 = Ok df') /\
    (l = ERROR <-> exists e, (preprocess_data unnamed_only world0).2 = Raise e).
Proof. exact (preprocess_data_only_logs unnamed_only world0). Defined.

Lemma train_test_split_keeps_rows_ten_rows :
  let df := preprocessed (raw_table 10 []) in
  exists train test,
    (train_test_split df (YFloat (Binary64.literal (2 # 10))) (Some 2) world0).2 = Ok (train, test) /\
    index test ++ index train ≡ₚ index df /\
    column_names train = column_names df /\
    column_names test = column_names df.
Proof.
  intros df.
  destruct ((train_test_split df (YFloat (Binary64.literal (2 # 10))) (Some 2) world0).2)
    as [[train test]|e] eqn:E; [|vm_compute in E; discriminate].
  exists train, test. split; [reflexivity|].
  destruct (train_test_split_keeps_rows df _ _ world0 train test E)
    as (H1 & H2 & H3 & _).
  split; [exact H1|]. split; [exact H2 | exact H3].
Defined.

Lemma train_test_split_ignores_cells_ten_rows :
  let df1 := preprocessed (raw_table 10 []) in
  let df2 := preprocessed (raw_table 10 [("extra", replicate 10 (Str "x"))]) in
  nrows df1 = nrows df2 /\
  exists train1 test1 train2 test2 ind_train ind_test,
    (train_test_split df1 (YFloat (Binary64.literal (2 # 10))) (Some 2) world0).2 = Ok (train1, test1) /\
    (train_test_split df2 (YFloat (Binary64.literal (2 # 10))) (Some 2) world_offline).2
    = Ok (train2, test2) /\
    Pandas.iloc df1 ind_train = Ok train1 /\
    Pandas.iloc df1 ind_test = Ok test1 /\
    Pandas.iloc df2 ind_train = Ok train2 /\
    Pandas.iloc df2 ind_test = Ok test2.
Proof.
  intros df1 df2.
  assert (nrows df1 = nrows df2) as Hn by reflexivity.
  split; [exact Hn|].
  destruct ((train_test_split df1 (YFloat (Binary64.literal (2 # 10))) (Some 2) world0).2)
    as [[train1 test1]|e] eqn:E; [|vm_compute in E; discriminate].
  destruct (train_test_split_ignores_cells df1 df2 _ 2 world0 world_offline
              train1 test1 Hn E)
    as (train2 & test2 & ind_train & ind_test & H).
  exists train1, test1, train2, test2, ind_train, ind_test.
  split; [reflexivity | exact H].
Defined.

Lemma train_test_split_row_count_three :
  let df := preprocessed (raw_table 10 []) in
  0 < 3 < Z.of_nat (nrows df) /\
  exists train test,
    (train_test_split df (YInt 3) (Some 2) world0).2 = Ok (train, test) /\
    Z.of_nat (nrows test) = 3 /\
    Z.of_nat (nrows train) = Z.of_nat (nrows df) - 3.
Proof.
  intros df.
  assert (0 < 3 < Z.of_nat (nrows df)) as H by (split; reflexivity).
  split; [exact H|].
  exact (train_test_split_row_count df 3 (Some 2) world0 H).
Defined.

Lemma save_data_writes_both_sample :
  let train := preprocessed (raw_table 8 []) in
  let test := preprocessed (raw_table 2 []) in
  let w' := (save_data train test "./data" world0).1 in
  makedirs_fault world0 "./data/raw" = None /\
  write_fault world0 train_csv = None /\
  write_fault world0 test_csv = None /\
  (save_data train test "./data" world0).2 = Ok tt /\
  disk w' !! train_csv = Some (columns train) /\
  disk w' !! test_csv = Some (columns test).
Proof.
  intros train test w'.
  assert (makedirs_fault world0 "./data/raw" = None) as H1 by reflexivity.
  assert (write_fault world0 train_csv = None) as H2 by reflexivity.
  assert (write_fault world0 test_csv = None) as H3 by reflexivity.
  destruct (save_data_writes_both train test "./data" world0 H1 H2 H3)
    as (Hr & Htr & Hte & _).
  split; [exact H1|]. split; [exact H2|]. split; [exact H3|].
  split; [exact Hr|]. split; [exact Htr | exact Hte].
Defined.

Lemma save_data_fails_early_sample :
  let train := preprocessed (raw_table 8 []) in
  let test := preprocessed (raw_table 2 []) in
  let w := set_disk disk_before
             (sample_world (config (2 # 10)) (raw_table 10 []) [train_csv]) in
  let e := Exn OSError "No space left on device" in
  let w' := (save_data train test "./data" w).1 in
  makedirs_fault w "./data/raw" = None /\
  write_fault w train_csv = Some e /\
  (save_data train test "./data" w).2 = Raise e /\
  disk w' !! test_csv = Some old_file /\
  disk w' !! "./data/notes.csv" = Some old_file /\
  disk w' !! train_csv = Some [].
Proof.
  intros train test w e w'.
  assert (makedirs_fault w "./data/raw" = None) as H1 by reflexivity.
  assert (write_fault w train_csv = Some e) as H2 by reflexivity.
  destruct (proj2 (save_data_fails_early train test "./data" w e) H1 H2)
    as (Hr & _ & Hother & Htrain).
  split; [exact H1|]. split; [exact H2|]. split; [exact Hr|]. split; [|split].
  - exact (eq_trans (Hother test_csv ltac:(discriminate) ltac:(discriminate))
             eq_refl).
  - exact (eq_trans (Hother "./data/notes.csv" ltac:(discriminate)
                       ltac:(discriminate)) eq_refl).
  - exact Htrain.
Defined.

Lemma save_data_overwrites_sample :
  let a := preprocessed (raw_table 8 []) in
  let b := preprocessed (raw_table 2 []) in
  makedirs_fault world0 "./data/raw" = None /\
  write_fault world0 train_csv = None /\
  write_fault world0 test_csv = None /\
  disk (save_data b a "./data" (save_data a b "./data" world0).1).1
  = disk (save_data b a "./data" world0).1.
Proof.
  intros a b.
  assert (makedirs_fault world0 "./data/raw" = None) as H1 by reflexivity.
  assert (write_fault world0 train_csv = None) as H2 by reflexivity.
  assert (write_fault world0 test_csv = None) as H3 by reflexivity.
  split; [exact H1|]. split; [exact H2|]. split; [exact H3|].
  exact (save_data_overwrites a b b a "./data" world0 H1 H2 H3).
Defined.

Lemma main_writes_two_files_only_sample :
  "./data/notes.csv" <> train_csv /\
  "./data/notes.csv" <> test_csv /\
  "./data/notes.csv" <> log_file_path /\
  disk (main world_rerun).1 !! "./data/notes.csv" = Some old_file.
Proof.
  assert ("./data/notes.csv" <> train_csv) as H1 by discriminate.
  assert ("./data/notes.csv" <> test_csv) as H2 by discriminate.
  assert ("./data/notes.csv" <> log_file_path) as H3 by discriminate.
  split; [exact H1|]. split; [exact H2|]. split; [exact H3|].
  exact (eq_trans (proj1 (main_writes_two_files_only world_rerun _ H1 H2 H3))
           eq_refl).
Defined.

Lemma main_writes_after_all_stages_sample :
  train_csv <> log_file_path /\
  disk (main world0).1 !! train_csv <> disk world0 !! train_csv /\
  exists (params data_ingestion test_size : yaml) (df : DataFrame)
         (n_train n_test : nat),
    yaml_file world0 "params.yaml" = Ok params /\
    getitem params "data_ingestion" = Ok data_ingestion /\
    getitem data_ingestion "test_size" = Ok test_size /\
    remote_csv world0 raw_url = Ok df /\
    (forall c, c ∈ dropped_labels -> c ∈ column_names df) /\
    Sklearn.validate_shuffle_split (nrows df) test_size = Ok (n_train, n_test).
Proof.
  assert (train_csv <> log_file_path) as H0 by discriminate.
  assert (disk (main world0).1 !! train_csv <> disk world0 !! train_csv) as H.
  { intros Heq. vm_compute in Heq. discriminate. }
  split; [exact H0|]. split; [exact H|].
  exact (main_writes_after_all_stages world0 train_csv H0 H).
Defined.

Lemma main_config_failure_sample :
  let e := Exn FileNotFoundError "No such file or directory: 'params.yaml'" in
  yaml_file world_unconfigured "params.yaml" = Raise e /\
  is_Exception e = true /\
  (main world_unconfigured).2 = Ok tt /\
  fetched (main world_unconfigured).1 = [] /\
  log (main world_unconfigured).1 =
    [(ERROR, "Data ingestion failed: No such file or directory: 'params.yaml'");
     (ERROR, "YAML file not found at path: params.yaml");
     (INFO, "Data ingestion process started.")].
Proof.
  intros e.
  assert (yaml_file world_unconfigured "params.yaml" = Raise e) as H by reflexivity.
  assert (is_Exception e = true) as He by reflexivity.
  destruct (main_config_failure world_unconfigured e H He)
    as (Hr & Hf & _ & _ & Hlog).
  split; [exact H|]. split; [exact He|]. split; [exact Hr|].
  split; [exact Hf | exact Hlog].
Defined.

Lemma main_fetch_failure_sample :
  let e := Exn OtherException "HTTP Error 404: Not Found" in
  let section := YMap {[ "test_size" := YFloat (Binary64.literal (2 # 10)) ]} in
  yaml_file world_offline "params.yaml" = Ok (config (2 # 10)) /\
  getitem (config (2 # 10)) "data_ingestion" = Ok section /\
  getitem section "test_size" = Ok (YFloat (Binary64.literal (2 # 10))) /\
  remote_csv world_offline raw_url = Raise e /\
  is_Exception e = true /\
  (main world_offline).2 = Ok tt /\
  disk (main world_offline).1 = disk world_offline /\
  log (main world_offline).1 =
    [(ERROR, "Data ingestion failed: HTTP Error 404: Not Found");
     (ERROR, "Unexpected error while loading data: HTTP Error 404: Not Found");
     (DEBUG, "Parameters successfully loaded from params.yaml");
     (INFO, "Data ingestion process started.")].
Proof.
  intros e section.
  assert (yaml_file world_offline "params.yaml" = Ok (config (2 # 10))) as H1
    by reflexivity.
  assert (getitem (config (2 # 10)) "data_ingestion" = Ok section) as H2
    by (vm_compute; reflexivity).
  assert (getitem section "test_size" = Ok (YFloat (Binary64.literal (2 # 10)))) as H3
    by (vm_compute; reflexivity).
  assert (remote_csv world_offline raw_url = Raise e) as H4 by reflexivity.
  assert (is_Exception e = true) as H5 by reflexivity.
  destruct (main_fetch_failure world_offline _ _ _ e H1 H2 H3 H4 H5)
    as (Hr & _ & Hd & _ & _ & Hlog).
  split; [exact H1|]. split; [exact H2|]. split; [exact H3|].
  split; [exact H4|]. split; [exact H5|]. split; [exact Hr|].
  split; [exact Hd | exact Hlog].
Defined.

Lemma main_rejected_test_size_sample :
  let section := YMap {[ "test_size" := YFloat (Binary64.literal (3 # 2)) ]} in
  let e := Sklearn.value_error "test_size should be a float in the (0, 1) range" in
  yaml_file world_oversized "params.yaml" = Ok (config (3 # 2)) /\
  getitem (config (3 # 2)) "data_ingestion" = Ok section /\
  getitem section "test_size" = Ok (YFloat (Binary64.literal (3 # 2))) /\
  remote_csv world_oversized raw_url = Ok (raw_table 10 []) /\
  Sklearn.validate_shuffle_split (nrows (raw_table 10 [])) (YFloat (Binary64.literal (3 # 2)))
  = Raise e /\
  (main world_oversized).2 = Ok tt /\
  fetched (main world_oversized).1 = [raw_url] /\
  disk (main world_oversized).1 = ∅.
Proof.
  intros section e.
  assert (yaml_file world_oversized "params.yaml" = Ok (config (3 # 2))) as H1
    by reflexivity.
  assert (getitem (config (3 # 2)) "data_ingestion" = Ok section) as H2
    by (vm_compute; reflexivity).
  assert (getitem section "test_size" = Ok (YFloat (Binary64.literal (3 # 2)))) as H3
    by (vm_compute; reflexivity).
  assert (remote_csv world_oversized raw_url = Ok (raw_table 10 [])) as H4
    by reflexivity.
  assert (Sklearn.validate_shuffle_split (nrows (raw_table 10 [])) (YFloat (Binary64.literal (3 # 2)))
          = Raise e) as H5 by reflexivity.
  destruct (main_rejected_test_size world_oversized _ _ _ _ e H1 H2 H3 H4
              (raw_table_has_dropped 10 []) H5)
    as (Hr & Hf & Hd & _).
  split; [exact H1|]. split; [exact H2|]. split; [exact H3|].
  split; [exact H4|]. split; [exact H5|]. split; [exact Hr|].
  split; [exact Hf | exact Hd].
Defined.

Lemma main_succeeds_sample :
  let section := YMap {[ "test_size" := YFloat (Binary64.literal (2 # 10)) ]} in
  let f := Binary64.literal (2 # 10) in
  let df := raw_table 10 [] in
  yaml_file world0 "params.yaml" = Ok (config (2 # 10)) /\
  getitem (config (2 # 10)) "data_ingestion" = Ok section /\
  getitem section "test_size" = Ok (YFloat f) /\
  Binary64.valid f = true /\
  Binary64.ltb (Binary64.of_int 0) f = true /\
  Binary64.ltb f (Binary64.of_int 1) = true /\
  remote_csv world0 raw_url = Ok df /\
  Binary64.ceil (Binary64.mul f (Binary64.of_int (Z.of_nat (nrows df)))) = Ok 2 /\
  makedirs_fault world0 "./data/raw" = None /\
  write_fault world0 train_csv = None /\
  write_fault world0 test_csv = None /\
  exists ind_train ind_test : list nat,
    ind_test ++ ind_train ≡ₚ seq 0 10 /\
    length ind_test = 2%nat /\
    (main world0).2 = Ok tt /\
    disk (main world0).1 =
      <[ test_csv := rows_at ind_test (columns (preprocessed df)) ]>
        (<[ train_csv := rows_at ind_train (columns (preprocessed df)) ]> ∅) /\
    Forall (fun c => length c.2 = length ind_test)
      (rows_at ind_test (columns (preprocessed df))).
Proof.
  intros section f df.
  assert (yaml_file world0 "params.yaml" = Ok (config (2 # 10))) as H1
    by reflexivity.
  assert (getitem (config (2 # 10)) "data_ingestion" = Ok section) as H2
    by (vm_compute; reflexivity).
  assert (getitem section "test_size" = Ok (YFloat f)) as H3
    by (vm_compute; reflexivity).
  assert (Binary64.valid f = true) as H4 by (vm_compute; reflexivity).
  assert (Binary64.ltb (Binary64.of_int 0) f = true) as H5
    by (vm_compute; reflexivity).
  assert (Binary64.ltb f (Binary64.of_int 1) = true) as H6
    by (vm_compute; reflexivity).
  assert (remote_csv world0 raw_url = Ok df) as H7 by reflexivity.
  assert (Binary64.ceil (Binary64.mul f (Binary64.of_int (Z.of_nat (nrows df))))
          = Ok 2) as H8 by (vm_compute; reflexivity).
  assert (0 < 2 < Z.of_nat (nrows df)) as H9 by (vm_compute; split; reflexivity).
  assert (makedirs_fault world0 "./data/raw" = None) as H10 by reflexivity.
  assert (write_fault world0 train_csv = None) as H11 by reflexivity.
  assert (write_fault world0 test_csv = None) as H12 by reflexivity.
  destruct (main_succeeds world0 _ _ f 2 df H1 H2 H3 H4 H5 H6 H7
              raw_table_well_formed (raw_table_has_dropped 10 []) H8 H9
              H10 H11 H12)
    as (ind_train & ind_test & Hperm & Hk & _ & Hr & Hd & _ & Hte & _).
  split; [exact H1|]. split; [exact H2|]. split; [exact H3|].
  split; [exact H4|]. split; [exact H5|]. split; [exact H6|].
  split; [exact H7|]. split; [exact H8|]. split; [exact H10|].
  split; [exact H11|]. split; [exact H12|].
  exists ind_train, ind_test. split; [exact Hperm|].
  split; [exact (Nat2Z.inj _ 2%nat Hk)|]. split; [exact Hr|].
  split; [exact Hd | exact Hte].
Defined.
